(** * kms-go: the wire mapping layer of the KMS client

    A shallow embedding of [kms/response.go] (domain response types and
    their [MarshalPB] / [UnmarshalPB] conversions, [readResponse]), of the
    request messages of [kms/protobuf/request.proto] with their generated
    accessors, and of the response messages of the response [.proto] file.

    Conventions of the embedding.
    - Go integers are [Z]; every conversion [T(x)] is written out with its
      wrap-around ([Go.uint32], [Go.int64], ...).  [int] and [uint] are
      64 bits wide ([Go.intSize]).
    - Go maps are [gmap]s; a [for k, v := range m] loop is a [map_fold].
      A nil map and an empty map read the same and are both [∅].
    - In [kms] a pointer to a struct denotes the allocated struct:
      methods are embedded on an allocated receiver and argument, as the
      call sites of the file supply them ([&m], [new(...)]), and the
      entries of a map of pointers are allocated structs, as a decoder
      and [UnmarshalPB] produce them.  [ptr] embeds the same conversions
      on pointers that may be nil.
    - A method [func (s *S) M(v *V) error] that writes through [v] is a
      function returning the new value of [v] with the returned [error];
      [None] is Go's [nil] error. *)

From Stdlib Require Import ZArith List String Ascii Bool Lia.
From Stdlib Require Import Init.Byte Strings.Byte.
From stdpp Require Import base option gmap strings list fin_maps.

Local Open Scope Z_scope.

#[export] Instance byte_eq_decision : EqDecision byte := byte_eq_dec.

(** ** Go's integer types *)

Module Go.

Definition intSize : Z := 64.

(** Truncation to an unsigned [w]-bit integer. *)
Definition uwrap (w z : Z) : Z := z mod 2 ^ w.

(** Truncation to a signed [w]-bit two's complement integer. *)
Definition swrap (w z : Z) : Z := (z + 2 ^ (w - 1)) mod 2 ^ w - 2 ^ (w - 1).

Definition uint32 (z : Z) : Z := uwrap 32 z.
Definition uint64 (z : Z) : Z := uwrap 64 z.
Definition uint (z : Z) : Z := uwrap intSize z.
Definition int32 (z : Z) : Z := swrap 32 z.
Definition int64 (z : Z) : Z := swrap 64 z.
Definition int (z : Z) : Z := swrap intSize z.

(** The largest length [make([]byte, n)] accepts on a 64-bit Linux
    runtime; [make] panics on a greater one. *)
Definition maxAlloc : Z := 2 ^ 48.

Definition MinInt64 : Z := - 2 ^ 63.
Definition MaxInt64 : Z := 2 ^ 63 - 1.

Definition is_uint32 (z : Z) : bool := (0 <=? z) && (z <? 2 ^ 32).
Definition is_uint64 (z : Z) : bool := (0 <=? z) && (z <? 2 ^ 64).
Definition is_uint (z : Z) : bool := (0 <=? z) && (z <? 2 ^ intSize).
Definition is_int32 (z : Z) : bool := (- 2 ^ 31 <=? z) && (z <? 2 ^ 31).
Definition is_int64 (z : Z) : bool := (MinInt64 <=? z) && (z <=? MaxInt64).
Definition is_int (z : Z) : bool :=
  (- 2 ^ (intSize - 1) <=? z) && (z <? 2 ^ (intSize - 1)).

End Go.

(** ** Errors *)

(** [kms.Error{Code, Err}] as built by [readResponse], the two sentinel
    errors of [io.ReadFull], and the errors of the two decoders. *)
Inductive error : Type :=
| Error (Code : Z) (Err : string)
| EOF
| ErrUnexpectedEOF
| ErrProto (msg : string)
| ErrProtoJSON (msg : string).

Module http.
Definition StatusLengthRequired : Z := 411.

(** The part of [http.Response] that [readResponse] reads: the declared
    content length, the header and the bytes the body still holds. *)
Record Response : Type := mkResponse {
  ContentLength : Z;
  Header : gmap string (list string);
  Body : list byte
}.

(** [Header.Get]: the first value of the key, or the empty string. *)
Definition Get (h : gmap string (list string)) (key : string) : string :=
  match h !! key with
  | Some (v :: _) => v
  | _ => EmptyString
  end.
End http.

Module io.
(** [io.ReadFull(body, buf)] with [len(buf) = n]: the buffer, what is left
    of the body, and the error.  Fewer than [n] bytes is [EOF] when
    nothing was read and [ErrUnexpectedEOF] otherwise. *)
Definition ReadFull (body : list byte) (n : nat)
  : list byte * list byte * option error :=
  match n with
  | O => ([], body, None)
  | _ =>
      match body with
      | [] => (repeat x00 n, [], Some EOF)
      | _ =>
          if (length body <? n)%nat
          then (take n (body ++ repeat x00 n), [], Some ErrUnexpectedEOF)
          else (take n body, drop n body, None)
      end
  end.
End io.

(** ** The wire duration *)

Module durationpb.

(** The [google.protobuf.Duration] well-known type that the response
    [.proto] imports: whole seconds (int64) and nanoseconds (int32). *)
Record Duration : Type := mkDuration { Seconds : Z; Nanos : Z }.

Definition Second : Z := 1000000000.

(** Generated getters are nil-safe: an absent message reads as zero. *)
Definition GetSeconds (x : option Duration) : Z :=
  match x with Some d => Seconds d | None => 0 end.

Definition GetNanos (x : option Duration) : Z :=
  match x with Some d => Nanos d | None => 0 end.

(** Modelled from the spec: [pb.Duration] (the helper of kms/protobuf
    that builds the wire duration from a [time.Duration]) is not under
    src.  The wire mapping layer owns the "duration/timestamp
    conversion"; the conversion splits the nanosecond count into whole
    seconds and the remaining nanoseconds, both truncated toward zero. *)
Definition New (d : Z) : Duration :=
  let nanos := d in
  let secs := Go.int64 (Z.quot nanos Second) in
  let nanos := Go.int64 (nanos - Go.int64 (secs * Second)) in
  {| Seconds := secs; Nanos := Go.int32 nanos |}.

(** Modelled from the spec: [AsDuration], the inverse conversion, is not
    under src.  A value received from a peer that does not fit a
    [time.Duration] "must be preserved as such, not wrapped or
    overflowed": when the whole seconds or the total overflow 64 bits
    the result is the least or the greatest duration, by the sign of
    the seconds. *)
Definition AsDuration (x : option Duration) : Z :=
  let secs := GetSeconds x in
  let nanos := GetNanos x in
  let d := Go.int64 (secs * Second) in
  let overflow := negb (Z.quot d Second =? secs) in
  let d := Go.int64 (d + nanos) in
  let overflow := overflow || ((secs <? 0) && (nanos <? 0) && (0 <? d)) in
  let overflow := overflow || ((0 <? secs) && (0 <? nanos) && (d <? 0)) in
  if overflow then
    if secs <? 0 then Go.MinInt64
    else if 0 <? secs then Go.MaxInt64
    else d
  else d.

(** A well-formed wire duration: the fields fit their wire types. *)
Definition wf (x : option Duration) : bool :=
  Go.is_int64 (GetSeconds x) && Go.is_int32 (GetNanos x).

End durationpb.

(** ** Wire messages of the responses *)

Module pb.

(** [pb.Duration(d)]: a present wire duration. *)
Definition Duration (d : Z) : option durationpb.Duration :=
  Some (durationpb.New d).

(** The wire message of one node's status ([ServerStatusResponse] in the
    [.proto] file; [response.go] names its Go type [pb.NodeStatusResponse]
    and its address field [Addr]).  Fields in the order of their field
    numbers. *)
Module NodeStatusResponse.
Record t : Type := mk {
  Version : string;
  APIVersion : string;
  Addr : string;
  UpTime : option durationpb.Duration;
  Role : string;
  Commit : Z;
  Nodes : gmap Z string;
  ID : Z;
  LeaderID : Z;
  LastHeartbeat : option durationpb.Duration;
  HeartbeatInterval : option durationpb.Duration;
  ElectionTimeout : option durationpb.Duration;
  OS : string;
  Arch : string;
  CPUs : Z;
  UsableCPUs : Z;
  HeapMemInUse : Z;
  StackMemInUse : Z;
  HSMs : list string;
  ConfiguredHSMs : list string
}.

(** [new(pb.NodeStatusResponse)]. *)
Definition zero : t :=
  mk "" "" "" None "" 0 ∅ 0 0 None None None "" "" 0 0 0 0 [] [].

(** The value is one of its Go type: every integer fits its wire type. *)
Definition wf (v : t) : Prop :=
  Go.is_uint64 (Commit v) = true ∧
  map_Forall (λ id _, Go.is_uint32 id = true) (Nodes v) ∧
  Go.is_uint32 (ID v) = true ∧
  Go.is_int64 (LeaderID v) = true ∧
  durationpb.wf (UpTime v) = true ∧
  durationpb.wf (LastHeartbeat v) = true ∧
  durationpb.wf (HeartbeatInterval v) = true ∧
  durationpb.wf (ElectionTimeout v) = true ∧
  Go.is_uint32 (CPUs v) = true ∧
  Go.is_uint32 (UsableCPUs v) = true ∧
  Go.is_uint64 (HeapMemInUse v) = true ∧
  Go.is_uint64 (StackMemInUse v) = true.
End NodeStatusResponse.

(** [ClusterStatusResponse] in the [.proto] file, [pb.StatusResponse] in
    [response.go]. *)
Module StatusResponse.
Record t : Type := mk {
  NodesUp : gmap Z NodeStatusResponse.t;
  NodesDown : gmap Z string
}.

Definition zero : t := mk ∅ ∅.

(** Map keys are [uint32] values. *)
Definition wf (v : t) : Prop :=
  map_Forall (λ id _, Go.is_uint32 id = true) (NodesUp v) ∧
  map_Forall (λ id _, Go.is_uint32 id = true) (NodesDown v).
End StatusResponse.

Module EncryptResponse.
Record t : Type := mk { Version : Z; Ciphertext : list byte }.
Definition zero : t := mk 0 [].
End EncryptResponse.

Module DecryptResponse.
Record t : Type := mk { Plaintext : list byte }.
Definition zero : t := mk [].
End DecryptResponse.

Module GenerateKeyResponse.
Record t : Type := mk {
  Version : Z;
  Plaintext : list byte;
  Ciphertext : list byte
}.
Definition zero : t := mk 0 [] [].
End GenerateKeyResponse.

(** *** Request messages: the generated Go types and their accessors *)

Module EditClusterRequest.
Record t : Type := mk { RemoveIDs : list Z }.

Definition GetRemoveIDs (x : option t) : list Z :=
  match x with
  | Some x => RemoveIDs x
  | None => []
  end.
End EditClusterRequest.

Module CreateKeyRequest.
Record t : Type := mk { Type_ : option string }.

Definition GetType (x : option t) : string :=
  match x with
  | Some {| Type_ := Some ty |} => ty
  | _ => EmptyString
  end.
End CreateKeyRequest.

Module AddKeyVersionRequest.
Record t : Type := mk { Type_ : option string }.

Definition GetType (x : option t) : string :=
  match x with
  | Some {| Type_ := Some ty |} => ty
  | _ => EmptyString
  end.
End AddKeyVersionRequest.

Module RemoveKeyVersionRequest.
Record t : Type := mk { Version : Z }.

Definition GetVersion (x : option t) : Z :=
  match x with
  | Some x => Version x
  | None => 0
  end.
End RemoveKeyVersionRequest.

Module EncryptRequest.
Record t : Type := mk {
  Version : Z;
  Plaintext : list byte;
  AssociatedData : list byte
}.

Definition GetVersion (x : option t) : Z :=
  match x with
  | Some x => Version x
  | None => 0
  end.

Definition GetPlaintext (x : option t) : list byte :=
  match x with
  | Some x => Plaintext x
  | None => []
  end.

Definition GetAssociatedData (x : option t) : list byte :=
  match x with
  | Some x => AssociatedData x
  | None => []
  end.
End EncryptRequest.

Module GenerateKeyRequest.
(** [Length] is a [*uint32]: [None] when the request omits it. *)
Record t : Type := mk {
  Version : Z;
  AssociatedData : list byte;
  Length : option Z
}.

Definition GetVersion (x : option t) : Z :=
  match x with
  | Some x => Version x
  | None => 0
  end.

Definition GetAssociatedData (x : option t) : list byte :=
  match x with
  | Some x => AssociatedData x
  | None => []
  end.

Definition GetLength (x : option t) : Z :=
  match x with
  | Some {| Length := Some l |} => l
  | _ => 0
  end.
End GenerateKeyRequest.

Module DecryptRequest.
Record t : Type := mk {
  Version : Z;
  Ciphertext : list byte;
  AssociatedData : list byte
}.

Definition GetVersion (x : option t) : Z :=
  match x with
  | Some x => Version x
  | None => 0
  end.

Definition GetCiphertext (x : option t) : list byte :=
  match x with
  | Some x => Ciphertext x
  | None => []
  end.

Definition GetAssociatedData (x : option t) : list byte :=
  match x with
  | Some x => AssociatedData x
  | None => []
  end.
End DecryptRequest.

(** *** Field descriptors *)

(** The [protobuf:"..."] struct tag of a generated field, with the name
    of the Go field it is attached to and the name in its [json:"..."]
    tag (which only Go's own encoding/json would use). *)
Record StructTag : Type := mkTag {
  goField : string;
  wire : string;
  number : Z;
  repeated : bool;
  packed : bool;
  name : string;
  json : string;
  oneof : bool;
  goJSON : string
}.

Definition EditClusterRequest_RemoveIDs : StructTag :=
  mkTag "RemoveIDs" "varint" 1 true true "RemoveIDs" "remove" false
        "RemoveIDs".
Definition CreateKeyRequest_Type : StructTag :=
  mkTag "Type" "bytes" 1 false false "Type" "type" true "Type".
Definition AddKeyVersionRequest_Type : StructTag :=
  mkTag "Type" "bytes" 1 false false "Type" "type" true "Type".
Definition RemoveKeyVersionRequest_Version : StructTag :=
  mkTag "Version" "varint" 1 false false "Version" "version" false "Version".
Definition EncryptRequest_Version : StructTag :=
  mkTag "Version" "varint" 1 false false "Version" "version" false "Version".
Definition EncryptRequest_Plaintext : StructTag :=
  mkTag "Plaintext" "bytes" 2 false false "Plaintext" "plaintext" false
        "Plaintext".
Definition EncryptRequest_AssociatedData : StructTag :=
  mkTag "AssociatedData" "bytes" 3 false false "AssociatedData"
        "associated_data" false "AssociatedData".
Definition GenerateKeyRequest_Version : StructTag :=
  mkTag "Version" "varint" 1 false false "Version" "version" false "Version".
Definition GenerateKeyRequest_AssociatedData : StructTag :=
  mkTag "AssociatedData" "bytes" 2 false false "AssociatedData"
        "associated_data" false "AssociatedData".
Definition GenerateKeyRequest_Length : StructTag :=
  mkTag "Length" "varint" 3 false false "Length" "length" true "Length".
Definition DecryptRequest_Version : StructTag :=
  mkTag "Version" "varint" 1 false false "Version" "version" false "Version".
Definition DecryptRequest_Ciphertext : StructTag :=
  mkTag "Ciphertext" "bytes" 2 false false "Ciphertext" "ciphertext" false
        "Ciphertext".
Definition DecryptRequest_AssociatedData : StructTag :=
  mkTag "AssociatedData" "bytes" 3 false false "AssociatedData"
        "associated_data" false "AssociatedData".

(** Every struct tag of the generated request types. *)
Definition file_request_proto_tags : list StructTag :=
  [ EditClusterRequest_RemoveIDs; CreateKeyRequest_Type;
    AddKeyVersionRequest_Type; RemoveKeyVersionRequest_Version;
    EncryptRequest_Version; EncryptRequest_Plaintext;
    EncryptRequest_AssociatedData; GenerateKeyRequest_Version;
    GenerateKeyRequest_AssociatedData; GenerateKeyRequest_Length;
    DecryptRequest_Version; DecryptRequest_Ciphertext;
    DecryptRequest_AssociatedData ].

(** A field value as reflection hands it to an encoder. *)
Inductive Value : Type :=
| VUint32 (z : Z)
| VBytes (b : list byte)
| VRepeatedUint32 (l : list Z)
| VOptUint32 (o : option Z)
| VOptString (o : option string).

(** proto3 presence: a plain scalar is populated when it is not its zero
    value, a repeated field when it is not empty, an optional field when
    it is set. *)
Definition populated (v : Value) : bool :=
  match v with
  | VUint32 z => negb (z =? 0)
  | VBytes b => negb (Nat.eqb (length b) 0)
  | VRepeatedUint32 l => negb (Nat.eqb (length l) 0)
  | VOptUint32 o => bool_decide (is_Some o)
  | VOptString o => bool_decide (is_Some o)
  end.

(** The members of the JSON object that the textual encoding writes for
    a message: each populated field under the [json=] name of its
    descriptor, in field order. *)
Definition jsonMembers (fields : list (StructTag * Value))
  : list (string * Value) :=
  map (λ f, (json (fst f), snd f))
      (List.filter (λ f, populated (snd f)) fields).

Definition EditClusterRequest_fields (x : EditClusterRequest.t)
  : list (StructTag * Value) :=
  [ (EditClusterRequest_RemoveIDs,
     VRepeatedUint32 (EditClusterRequest.RemoveIDs x)) ].

Definition EncryptRequest_fields (x : EncryptRequest.t)
  : list (StructTag * Value) :=
  [ (EncryptRequest_Version, VUint32 (EncryptRequest.Version x));
    (EncryptRequest_Plaintext, VBytes (EncryptRequest.Plaintext x));
    (EncryptRequest_AssociatedData,
     VBytes (EncryptRequest.AssociatedData x)) ].

Definition GenerateKeyRequest_fields (x : GenerateKeyRequest.t)
  : list (StructTag * Value) :=
  [ (GenerateKeyRequest_Version, VUint32 (GenerateKeyRequest.Version x));
    (GenerateKeyRequest_AssociatedData,
     VBytes (GenerateKeyRequest.AssociatedData x));
    (GenerateKeyRequest_Length, VOptUint32 (GenerateKeyRequest.Length x)) ].

Definition DecryptRequest_fields (x : DecryptRequest.t)
  : list (StructTag * Value) :=
  [ (DecryptRequest_Version, VUint32 (DecryptRequest.Version x));
    (DecryptRequest_Ciphertext, VBytes (DecryptRequest.Ciphertext x));
    (DecryptRequest_AssociatedData,
     VBytes (DecryptRequest.AssociatedData x)) ].

(** *** The declarations of the two [.proto] files *)

Record FieldDecl : Type := field {
  ftype : string;
  fname : string;
  fnumber : Z;
  json_name : string
}.

Record MessageDecl : Type := message {
  mname : string;
  mfields : list FieldDecl
}.

(** kms/protobuf/request.proto *)
Definition request_proto : list MessageDecl :=
[ message "ClusterStatusRequest" [];
  message "ListRequest" [
      field "string" "Prefix" 1 "prefix";
      field "string" "ContinueAt" 2 "continue_at";
      field "uint32" "Limit" 3 "limit"];
  message "AddClusterNodeRequest" [
      field "string" "Host" 1 "host"];
  message "RemoveClusterNodeRequest" [
      field "string" "Host" 1 "host";
      field "bool" "DeleteClusterOnHost" 2 "delete_cluster_on_host"];
  message "EditClusterRequest" [
      field "string" "Host" 1 "host";
      field "repeated uint32" "RemoveIDs" 2 "remove"];
  message "AddHSMRequest" [
      field "string" "Name" 1 "name";
      field "bool" "Overwrite" 2 "overwrite"];
  message "RemoveHSMRequest" [
      field "string" "Name" 1 "name"];
  message "CreateEnclaveRequest" [
      field "string" "Name" 1 "name"];
  message "DeleteEnclaveRequest" [
      field "string" "Name" 1 "name"];
  message "EnclaveStatusRequest" [
      field "string" "Name" 1 "name"];
  message "LogRequest" [
      field "sint32" "Level" 1 "level";
      field "string" "Message" 2 "message";
      field "google.protobuf.Timestamp" "Since" 3 "since";
      field "sint32" "TraceLevel" 4 "trace_level"];
  message "CreateKeyRequest" [
      field "string" "Name" 1 "name";
      field "string" "Type" 2 "type";
      field "bool" "AddVersion" 3 "add_version"];
  message "ImportKeyRequest" [
      field "string" "Name" 1 "name";
      field "string" "Type" 2 "type";
      field "bytes" "Key" 3 "key"];
  message "DeleteKeyRequest" [
      field "string" "Name" 1 "name";
      field "uint32" "Version" 2 "version";
      field "bool" "AllVersions" 3 "all_versions"];
  message "KeyStatusRequest" [
      field "string" "Name" 1 "name";
      field "uint32" "Version" 2 "version"];
  message "EncryptRequest" [
      field "string" "Name" 1 "name";
      field "uint32" "Version" 2 "version";
      field "bytes" "Plaintext" 3 "plaintext";
      field "bytes" "AssociatedData" 4 "associated_data"];
  message "GenerateKeyRequest" [
      field "string" "Name" 1 "name";
      field "uint32" "Version" 2 "version";
      field "bytes" "AssociatedData" 3 "associated_data";
      field "uint32" "Length" 4 "length"];
  message "MACRequest" [
      field "string" "Name" 1 "name";
      field "uint32" "Version" 2 "version";
      field "bytes" "Message" 3 "message"];
  message "DecryptRequest" [
      field "string" "Name" 1 "name";
      field "uint32" "Version" 2 "version";
      field "bytes" "Ciphertext" 3 "ciphertext";
      field "bytes" "AssociatedData" 4 "associated_data"];
  message "CreatePolicyRequest" [
      field "string" "Name" 1 "name";
      field "map<string,RuleSet>" "Allow" 2 "allow";
      field "map<string,RuleSet>" "Deny" 3 "deny"];
  message "PolicyRequest" [
      field "string" "Name" 1 "name"];
  message "DeletePolicyRequest" [
      field "string" "Name" 1 "name"];
  message "AssignPolicyRequest" [
      field "string" "Identity" 1 "identity";
      field "string" "Policy" 2 "policy"];
  message "CreateIdentityRequest" [
      field "string" "Identity" 1 "identity";
      field "string" "Privilege" 2 "privilege";
      field "bool" "IsServiceAccount" 3 "service_account";
      field "map<string,string>" "Tags" 4 "tags"];
  message "IdentityRequest" [
      field "string" "Identity" 1 "identity"];
  message "DeleteIdentityRequest" [
      field "string" "Identity" 1 "identity"] ].

(** The response [.proto] file. *)
Definition response_proto : list MessageDecl :=
[ message "ErrResponse" [
      field "string" "Message" 1 "message"];
  message "VersionResponse" [
      field "string" "Version" 1 "version";
      field "string" "Commit" 2 "commit";
      field "string" "APIVersion" 3 "api_version";
      field "string" "Host" 4 "host";
      field "bool" "FIPS140" 5 "fips140"];
  message "ServerStatusResponse" [
      field "string" "Version" 1 "version";
      field "string" "APIVersion" 2 "api_version";
      field "string" "Host" 3 "host";
      field "google.protobuf.Duration" "UpTime" 4 "uptime";
      field "string" "Role" 5 "role";
      field "uint64" "Commit" 6 "commit";
      field "map<uint32,string>" "Nodes" 7 "nodes";
      field "uint32" "ID" 8 "node_id";
      field "sint64" "LeaderID" 9 "leader_id";
      field "google.protobuf.Duration" "LastHeartbeat" 10 "last_heartbeat";
      field "google.protobuf.Duration" "HeartbeatInterval" 11 "heartbeat_interval";
      field "google.protobuf.Duration" "ElectionTimeout" 12 "election_timeout";
      field "string" "OS" 13 "sys_os";
      field "string" "Arch" 14 "sys_cpu_arch";
      field "uint32" "CPUs" 15 "sys_cpu_num";
      field "uint32" "UsableCPUs" 16 "sys_cpu_used";
      field "uint64" "HeapMemInUse" 17 "sys_mem_heap_used";
      field "uint64" "StackMemInUse" 18 "sys_mem_stack_used";
      field "repeated string" "HSMs" 19 "hsm";
      field "repeated string" "ConfiguredHSMs" 20 "hsm_active"];
  message "ProfileStatusResponse" [
      field "google.protobuf.Timestamp" "Started" 1 "started";
      field "bool" "CPU" 2 "cpu";
      field "bool" "Heap" 3 "heap";
      field "bool" "Goroutine" 4 "goroutine";
      field "bool" "Thread" 5 "thread";
      field "uint32" "BlockRate" 6 "block_rate";
      field "uint32" "MutexFraction" 7 "mutex_frac"];
  message "ClusterStatusResponse" [
      field "map<uint32,ServerStatusResponse>" "NodesUp" 1 "nodes_up";
      field "map<uint32,string>" "NodesDown" 2 "nodes_down"];
  message "EnclaveStatusResponse" [
      field "string" "Name" 1 "name";
      field "google.protobuf.Timestamp" "CreatedAt" 2 "created_at";
      field "string" "CreatedBy" 3 "created_by"];
  message "ListEnclavesResponse" [
      field "repeated EnclaveStatusResponse" "Enclaves" 1 "enclaves";
      field "string" "ContinueAt" 2 "continue_at"];
  message "KeyStatusResponse" [
      field "string" "Name" 1 "name";
      field "uint32" "Version" 2 "version";
      field "string" "Type" 3 "type";
      field "google.protobuf.Timestamp" "CreatedAt" 4 "created_at";
      field "string" "CreatedBy" 5 "created_by"];
  message "ListKeysResponse" [
      field "repeated KeyStatusResponse" "Keys" 1 "keys";
      field "string" "ContinueAt" 2 "continue_at"];
  message "EncryptResponse" [
      field "uint32" "Version" 1 "version";
      field "bytes" "Ciphertext" 2 "ciphertext"];
  message "DecryptResponse" [
      field "bytes" "Plaintext" 1 "plaintext"];
  message "GenerateKeyResponse" [
      field "uint32" "Version" 1 "version";
      field "bytes" "Plaintext" 2 "plaintext";
      field "bytes" "Ciphertext" 3 "ciphertext"];
  message "MACResponse" [
      field "uint32" "Version" 1 "version";
      field "bytes" "MAC" 2 "mac"];
  message "PolicyStatusResponse" [
      field "string" "Name" 1 "name";
      field "google.protobuf.Timestamp" "CreatedAt" 4 "created_at";
      field "string" "CreatedBy" 5 "created_by"];
  message "PolicyResponse" [
      field "string" "Name" 1 "name";
      field "map<string,RuleSet>" "Allow" 2 "allow";
      field "map<string,RuleSet>" "Deny" 3 "deny";
      field "google.protobuf.Timestamp" "CreatedAt" 4 "created_at";
      field "string" "CreatedBy" 5 "created_by"];
  message "ListPoliciesResponse" [
      field "repeated PolicyStatusResponse" "Policies" 1 "policies";
      field "string" "ContinueAt" 2 "continue_at"];
  message "IdentityResponse" [
      field "string" "Identity" 1 "identity";
      field "uint32" "Privilege" 2 "privilege";
      field "string" "Policy" 3 "policy";
      field "google.protobuf.Timestamp" "CreatedAt" 4 "created_at";
      field "string" "CreatedBy" 5 "created_by";
      field "bool" "IsServiceAccount" 6 "is_service_account";
      field "repeated string" "ServiceAccounts" 7 "service_accounts";
      field "map<string,string>" "Tags" 8 "tags"];
  message "ListIdentitiesResponse" [
      field "repeated IdentityResponse" "Identities" 1 "identities";
      field "string" "ContinueAt" 2 "continue_at"] ].

(** The JSON label a [.proto] file declares for a field of a message. *)
Definition jsonNameOf (file : list MessageDecl) (msg fld : string)
  : option string :=
  match find (λ m, String.eqb (mname m) msg) file with
  | Some m =>
      match find (λ f, String.eqb (fname f) fld) (mfields m) with
      | Some f => Some (json_name f)
      | None => None
      end
  | None => None
  end.

(** Lower-case snake case: lower-case letters, digits and underscores,
    starting with a letter. *)
Definition isLowerChar (c : ascii) : bool :=
  let n := nat_of_ascii c in (97 <=? n)%nat && (n <=? 122)%nat.

Definition isSnakeChar (c : ascii) : bool :=
  let n := nat_of_ascii c in
  isLowerChar c || ((48 <=? n)%nat && (n <=? 57)%nat) || (n =? 95)%nat.

Definition isSnakeCase (s : string) : bool :=
  match s with
  | EmptyString => false
  | String c _ => isLowerChar c && forallb isSnakeChar (list_ascii_of_string s)
  end.

Definition allLabels (file : list MessageDecl) : list string :=
  flat_map (λ m, map json_name (mfields m)) file.

End pb.

(** ** Domain response types and their conversions (kms/response.go) *)

Module kms.

(** [for id, x := range m { out[conv(id)] = x }] into a fresh map.  Go
    leaves the order of the iteration open and [map_fold] visits the
    entries in one order; the order shows only when [conv] sends two
    keys of [m] to the same key. *)
Definition rekey {A : Type} (conv : Z → Z) (m : gmap Z A) : gmap Z A :=
  map_fold (λ id x out, <[conv id := x]> out) ∅ m.

Module NodeStatusResponse.
Record t : Type := mk {
  Version : string;
  APIVersion : string;
  Endpoint : string;
  Role : string;
  Commit : Z;
  Nodes : gmap Z string;
  ID : Z;
  LeaderID : Z;
  LastHeartbeat : Z;
  HeartbeatInterval : Z;
  ElectionTimeout : Z;
  UpTime : Z;
  OS : string;
  CPUArch : string;
  CPUs : Z;
  UsableCPUs : Z;
  HeapMemInUse : Z;
  StackMemInUse : Z
}.

(** [new(NodeStatusResponse)]. *)
Definition zero : t := mk "" "" "" "" 0 ∅ 0 0 0 0 0 0 "" "" 0 0 0 0.

(** The value is one of its Go type: [int] and [time.Duration] fields are
    64-bit signed, [uint] and [uint64] fields 64-bit unsigned. *)
Definition wf (s : t) : Prop :=
  Go.is_uint64 (Commit s) = true ∧
  map_Forall (λ id _, Go.is_int id = true) (Nodes s) ∧
  Go.is_int (ID s) = true ∧
  Go.is_int (LeaderID s) = true ∧
  Go.is_int64 (LastHeartbeat s) = true ∧
  Go.is_int64 (HeartbeatInterval s) = true ∧
  Go.is_int64 (ElectionTimeout s) = true ∧
  Go.is_int64 (UpTime s) = true ∧
  Go.is_uint (CPUs s) = true ∧
  Go.is_uint (UsableCPUs s) = true ∧
  Go.is_uint64 (HeapMemInUse s) = true ∧
  Go.is_uint64 (StackMemInUse s) = true.

(** MarshalPB converts the NodeStatusResponse into its protobuf
    representation.  The fields of [v] that the method does not assign
    keep the value they had. *)
Definition MarshalPB (s : t) (v : pb.NodeStatusResponse.t)
  : pb.NodeStatusResponse.t * option error :=
  ({| pb.NodeStatusResponse.Version := Version s;
      pb.NodeStatusResponse.APIVersion := APIVersion s;
      pb.NodeStatusResponse.Addr := Endpoint s;
      pb.NodeStatusResponse.UpTime := pb.NodeStatusResponse.UpTime v;
      pb.NodeStatusResponse.Role := Role s;
      pb.NodeStatusResponse.Commit := Commit s;
      pb.NodeStatusResponse.Nodes := rekey Go.uint32 (Nodes s);
      pb.NodeStatusResponse.ID := Go.uint32 (ID s);
      pb.NodeStatusResponse.LeaderID := Go.int64 (LeaderID s);
      pb.NodeStatusResponse.LastHeartbeat := pb.Duration (LastHeartbeat s);
      pb.NodeStatusResponse.HeartbeatInterval :=
        pb.Duration (HeartbeatInterval s);
      pb.NodeStatusResponse.ElectionTimeout :=
        pb.Duration (ElectionTimeout s);
      pb.NodeStatusResponse.OS := OS s;
      pb.NodeStatusResponse.Arch := CPUArch s;
      pb.NodeStatusResponse.CPUs := Go.uint32 (CPUs s);
      pb.NodeStatusResponse.UsableCPUs := Go.uint32 (UsableCPUs s);
      pb.NodeStatusResponse.HeapMemInUse := HeapMemInUse s;
      pb.NodeStatusResponse.StackMemInUse := StackMemInUse s;
      pb.NodeStatusResponse.HSMs := pb.NodeStatusResponse.HSMs v;
      pb.NodeStatusResponse.ConfiguredHSMs :=
        pb.NodeStatusResponse.ConfiguredHSMs v |},
   None).

(** UnmarshalPB initializes the NodeStatusResponse from its protobuf
    representation.  [UpTime] is not assigned: the receiver keeps its
    own. *)
Definition UnmarshalPB (s : t) (v : pb.NodeStatusResponse.t)
  : t * option error :=
  ({| Version := pb.NodeStatusResponse.Version v;
      APIVersion := pb.NodeStatusResponse.APIVersion v;
      Endpoint := pb.NodeStatusResponse.Addr v;
      Role := pb.NodeStatusResponse.Role v;
      Commit := pb.NodeStatusResponse.Commit v;
      Nodes := rekey Go.int (pb.NodeStatusResponse.Nodes v);
      ID := Go.int (pb.NodeStatusResponse.ID v);
      LeaderID := Go.int (pb.NodeStatusResponse.LeaderID v);
      LastHeartbeat :=
        durationpb.AsDuration (pb.NodeStatusResponse.LastHeartbeat v);
      HeartbeatInterval :=
        durationpb.AsDuration (pb.NodeStatusResponse.HeartbeatInterval v);
      ElectionTimeout :=
        durationpb.AsDuration (pb.NodeStatusResponse.ElectionTimeout v);
      UpTime := UpTime s;
      OS := pb.NodeStatusResponse.OS v;
      CPUArch := pb.NodeStatusResponse.Arch v;
      CPUs := Go.uint (pb.NodeStatusResponse.CPUs v);
      UsableCPUs := Go.uint (pb.NodeStatusResponse.UsableCPUs v);
      HeapMemInUse := pb.NodeStatusResponse.HeapMemInUse v;
      StackMemInUse := pb.NodeStatusResponse.StackMemInUse v |},
   None).

(** The receiver with its [UpTime] replaced. *)
Definition withUpTime (d : Z) (s : t) : t :=
  mk (Version s) (APIVersion s) (Endpoint s) (Role s) (Commit s) (Nodes s)
     (ID s) (LeaderID s) (LastHeartbeat s) (HeartbeatInterval s)
     (ElectionTimeout s) d (OS s) (CPUArch s) (CPUs s) (UsableCPUs s)
     (HeapMemInUse s) (StackMemInUse s).

(** Every narrowing conversion of [MarshalPB] is applied to a value that
    the narrower wire type holds. *)
Definition fitsWire (s : t) : Prop :=
  map_Forall (λ id _, Go.is_uint32 id = true) (Nodes s) ∧
  Go.is_uint32 (ID s) = true ∧
  Go.is_uint32 (CPUs s) = true ∧
  Go.is_uint32 (UsableCPUs s) = true.
End NodeStatusResponse.

Module StatusResponse.
Record t : Type := mk {
  NodesUp : gmap Z NodeStatusResponse.t;
  NodesDown : gmap Z string
}.

Definition zero : t := mk ∅ ∅.

(** One iteration of the loop over [NodesUp] in [MarshalPB]; once an
    error was returned the remaining entries are not visited. *)
Definition marshalUp (id : Z) (resp : NodeStatusResponse.t)
  (st : gmap Z pb.NodeStatusResponse.t * option error)
  : gmap Z pb.NodeStatusResponse.t * option error :=
  match st with
  | (out, Some e) => (out, Some e)
  | (out, None) =>
      match NodeStatusResponse.MarshalPB resp pb.NodeStatusResponse.zero with
      | (_, Some e) => (out, Some e)
      | (stat, None) => (<[Go.uint32 id := stat]> out, None)
      end
  end.

(** MarshalPB converts the StatusResponse into its protobuf
    representation. *)
Definition MarshalPB (s : t) (v : pb.StatusResponse.t)
  : pb.StatusResponse.t * option error :=
  match map_fold marshalUp (∅, None) (NodesUp s) with
  | (up, Some e) =>
      ({| pb.StatusResponse.NodesUp := up;
          pb.StatusResponse.NodesDown := pb.StatusResponse.NodesDown v |},
       Some e)
  | (up, None) =>
      ({| pb.StatusResponse.NodesUp := up;
          pb.StatusResponse.NodesDown := rekey Go.uint32 (NodesDown s) |},
       None)
  end.

(** One iteration of the loop over [v.NodesUp] in [UnmarshalPB]. *)
Definition unmarshalUp (id : Z) (resp : pb.NodeStatusResponse.t)
  (st : gmap Z NodeStatusResponse.t * option error)
  : gmap Z NodeStatusResponse.t * option error :=
  match st with
  | (out, Some e) => (out, Some e)
  | (out, None) =>
      match NodeStatusResponse.UnmarshalPB NodeStatusResponse.zero resp with
      | (_, Some e) => (out, Some e)
      | (stat, None) => (<[Go.int id := stat]> out, None)
      end
  end.

(** UnmarshalPB initializes the StatusResponse from its protobuf
    representation. *)
Definition UnmarshalPB (s : t) (v : pb.StatusResponse.t)
  : t * option error :=
  match map_fold unmarshalUp (∅, None) (pb.StatusResponse.NodesUp v) with
  | (up, Some e) => ({| NodesUp := up; NodesDown := NodesDown s |}, Some e)
  | (up, None) =>
      ({| NodesUp := up;
          NodesDown := rekey Go.int (pb.StatusResponse.NodesDown v) |},
       None)
  end.
End StatusResponse.

Module EncryptResponse.
Record t : Type := mk { Version : Z; Ciphertext : list byte }.
Definition zero : t := mk 0 [].

Definition MarshalPB (r : t) (v : pb.EncryptResponse.t)
  : pb.EncryptResponse.t * option error :=
  ({| pb.EncryptResponse.Version := Go.uint32 (Version r);
      pb.EncryptResponse.Ciphertext := Ciphertext r |}, None).

Definition UnmarshalPB (r : t) (v : pb.EncryptResponse.t)
  : t * option error :=
  ({| Version := Go.int (pb.EncryptResponse.Version v);
      Ciphertext := pb.EncryptResponse.Ciphertext v |}, None).
End EncryptResponse.

Module DecryptResponse.
Record t : Type := mk { Plaintext : list byte }.
Definition zero : t := mk [].

Definition MarshalPB (r : t) (v : pb.DecryptResponse.t)
  : pb.DecryptResponse.t * option error :=
  ({| pb.DecryptResponse.Plaintext := Plaintext r |}, None).

Definition UnmarshalPB (r : t) (v : pb.DecryptResponse.t)
  : t * option error :=
  ({| Plaintext := pb.DecryptResponse.Plaintext v |}, None).
End DecryptResponse.

Module GenerateKeyResponse.
Record t : Type := mk {
  Version : Z;
  Plaintext : list byte;
  Ciphertext : list byte
}.
Definition zero : t := mk 0 [] [].

Definition MarshalPB (r : t) (v : pb.GenerateKeyResponse.t)
  : pb.GenerateKeyResponse.t * option error :=
  ({| pb.GenerateKeyResponse.Version := Go.uint32 (Version r);
      pb.GenerateKeyResponse.Plaintext := Plaintext r;
      pb.GenerateKeyResponse.Ciphertext := Ciphertext r |}, None).

Definition UnmarshalPB (r : t) (v : pb.GenerateKeyResponse.t)
  : t * option error :=
  ({| Version := Go.int (pb.GenerateKeyResponse.Version v);
      Plaintext := pb.GenerateKeyResponse.Plaintext v;
      Ciphertext := pb.GenerateKeyResponse.Ciphertext v |}, None).
End GenerateKeyResponse.

(** *** The interfaces of [readResponse]'s type parameters *)

(** [pb.Unmarshaler[P]]: a domain type initialised from the message [M]. *)
Class Unmarshaler (T M : Type) : Type :=
  UnmarshalPB : T → M → T * option error.

(** [pb.Marshaler[P]]. *)
Class Marshaler (T M : Type) : Type :=
  MarshalPB : T → M → M * option error.

(** A protobuf message type with its two codecs ([proto] and
    [protojson]), which belong to the protobuf library. *)
Class Message (M : Type) : Type := {
  proto_Marshal : M → list byte;
  proto_Unmarshal : list byte → M + error;
  protojson_Marshal : M → list byte;
  protojson_Unmarshal : list byte → M + error
}.

(** Both codecs decode what they encoded. *)
Class MessageLaws (M : Type) `{Message M} : Prop := {
  proto_roundtrip : ∀ m : M, proto_Unmarshal (proto_Marshal m) = inl m;
  protojson_roundtrip :
    ∀ m : M, protojson_Unmarshal (protojson_Marshal m) = inl m
}.

#[export] Instance NodeStatusResponse_Unmarshaler
  : Unmarshaler NodeStatusResponse.t pb.NodeStatusResponse.t :=
  NodeStatusResponse.UnmarshalPB.
#[export] Instance StatusResponse_Unmarshaler
  : Unmarshaler StatusResponse.t pb.StatusResponse.t :=
  StatusResponse.UnmarshalPB.
#[export] Instance EncryptResponse_Unmarshaler
  : Unmarshaler EncryptResponse.t pb.EncryptResponse.t :=
  EncryptResponse.UnmarshalPB.
#[export] Instance DecryptResponse_Unmarshaler
  : Unmarshaler DecryptResponse.t pb.DecryptResponse.t :=
  DecryptResponse.UnmarshalPB.
#[export] Instance GenerateKeyResponse_Unmarshaler
  : Unmarshaler GenerateKeyResponse.t pb.GenerateKeyResponse.t :=
  GenerateKeyResponse.UnmarshalPB.

#[export] Instance NodeStatusResponse_Marshaler
  : Marshaler NodeStatusResponse.t pb.NodeStatusResponse.t :=
  NodeStatusResponse.MarshalPB.
#[export] Instance StatusResponse_Marshaler
  : Marshaler StatusResponse.t pb.StatusResponse.t :=
  StatusResponse.MarshalPB.
#[export] Instance EncryptResponse_Marshaler
  : Marshaler EncryptResponse.t pb.EncryptResponse.t :=
  EncryptResponse.MarshalPB.
#[export] Instance DecryptResponse_Marshaler
  : Marshaler DecryptResponse.t pb.DecryptResponse.t :=
  DecryptResponse.MarshalPB.
#[export] Instance GenerateKeyResponse_Marshaler
  : Marshaler GenerateKeyResponse.t pb.GenerateKeyResponse.t :=
  GenerateKeyResponse.MarshalPB.

(** *** readResponse *)

(** What [readResponse] does besides returning: the calls it makes, in
    order. *)
Inductive Event : Type :=
| EvReadFull (n : nat)
| EvProtoUnmarshal (buf : list byte)
| EvProtoJSONUnmarshal (buf : list byte)
| EvUnmarshalPB.

(** The state [readResponse] leaves behind: the value of [v], the
    returned error, the unread rest of the body and the calls made. *)
Record Outcome (T : Type) : Type := mkOutcome {
  value : T;
  err : option error;
  rest : list byte;
  trace : list Event
}.
Arguments mkOutcome {T} _ _ _ _.
Arguments value {T} _.
Arguments err {T} _.
Arguments rest {T} _.
Arguments trace {T} _.

Section readResponse.
(** The two header constants of kms/internal/headers are not under src
    and are taken as parameters. *)
Variable ContentType : string.
Variable ContentTypeBinary : string.
Context {M T : Type} `{Message M} `{Unmarshaler T M}.

(** readResponse reads the response body into [v] using the response
    content encoding. *)
Definition readResponse (r : http.Response) (v : T) : Outcome T :=
  if http.ContentLength r <? 0 then
    mkOutcome v
      (Some (Error http.StatusLengthRequired
               "request content length is negative"))
      (http.Body r) []
  else
    let n := Z.to_nat (http.ContentLength r) in
    match io.ReadFull (http.Body r) n with
    | (_, rest, Some e) => mkOutcome v (Some e) rest [EvReadFull n]
    | (buf, rest, None) =>
        if String.eqb (http.Get (http.Header r) ContentType) ContentTypeBinary
        then
          match proto_Unmarshal buf with
          | inr e => mkOutcome v (Some e) rest [EvReadFull n; EvProtoUnmarshal buf]
          | inl p =>
              let '(v', e) := UnmarshalPB v p in
              mkOutcome v' e rest
                [EvReadFull n; EvProtoUnmarshal buf; EvUnmarshalPB]
          end
        else
          match protojson_Unmarshal buf with
          | inr e =>
              mkOutcome v (Some e) rest [EvReadFull n; EvProtoJSONUnmarshal buf]
          | inl p =>
              let '(v', e) := UnmarshalPB v p in
              mkOutcome v' e rest
                [EvReadFull n; EvProtoJSONUnmarshal buf; EvUnmarshalPB]
          end
    end.
End readResponse.

End kms.

(** ** The conversions on pointers *)

(** Every conversion takes its receiver and its argument by pointer,
    and a StatusResponse holds the status of its nodes by pointer.  The
    definitions of [kms] are the conversions on allocated values.  Here
    a pointer may be nil ([None]): a call returns, with what it wrote
    and its error, or panics on reading or writing through a nil
    pointer. *)

Module ptr.

Inductive Result (A : Type) : Type :=
| Returned (a : A) (e : option error)
| Panics.
Arguments Returned {A} _ _.
Arguments Panics {A}.

(** A method whose first statement reads a field of one pointer and
    assigns it to a field of the other, as the first statement of every
    MarshalPB and UnmarshalPB does. *)
Definition method {S V R : Type} (body : S → V → R * option error)
  (s : option S) (v : option V) : Result R :=
  match s, v with
  | Some s, Some v => Returned (body s v).1 (body s v).2
  | _, _ => Panics
  end.

Module NodeStatusResponse.
Definition MarshalPB := method kms.NodeStatusResponse.MarshalPB.
Definition UnmarshalPB := method kms.NodeStatusResponse.UnmarshalPB.
End NodeStatusResponse.

Module EncryptResponse.
Definition MarshalPB := method kms.EncryptResponse.MarshalPB.
Definition UnmarshalPB := method kms.EncryptResponse.UnmarshalPB.
End EncryptResponse.

Module DecryptResponse.
Definition MarshalPB := method kms.DecryptResponse.MarshalPB.
Definition UnmarshalPB := method kms.DecryptResponse.UnmarshalPB.
End DecryptResponse.

Module GenerateKeyResponse.
Definition MarshalPB := method kms.GenerateKeyResponse.MarshalPB.
Definition UnmarshalPB := method kms.GenerateKeyResponse.UnmarshalPB.
End GenerateKeyResponse.

(** [pb.StatusResponse]: [NodesUp] is a [map[uint32]*pb.NodeStatusResponse]. *)
Module pbStatusResponse.
Record t : Type := mk {
  NodesUp : gmap Z (option pb.NodeStatusResponse.t);
  NodesDown : gmap Z string
}.

(** No entry of [NodesUp] is nil. *)
Definition allocated (v : t) : Prop :=
  map_Forall (λ _ x, is_Some x) (NodesUp v).

(** The message with every node allocated. *)
Definition lift (v : pb.StatusResponse.t) : t :=
  {| NodesUp := Some <$> pb.StatusResponse.NodesUp v;
     NodesDown := pb.StatusResponse.NodesDown v |}.
End pbStatusResponse.

(** [StatusResponse]: [NodesUp] is a [map[int]*NodeStatusResponse]. *)
Module StatusResponse.
Record t : Type := mk {
  NodesUp : gmap Z (option kms.NodeStatusResponse.t);
  NodesDown : gmap Z string
}.

Definition allocated (s : t) : Prop :=
  map_Forall (λ _ x, is_Some x) (NodesUp s).

Definition lift (s : kms.StatusResponse.t) : t :=
  {| NodesUp := Some <$> kms.StatusResponse.NodesUp s;
     NodesDown := kms.StatusResponse.NodesDown s |}.

(** One iteration of the loop over [s.NodesUp] in [MarshalPB]:
    [resp.MarshalPB(stat)] with [stat := new(pb.NodeStatusResponse)]. *)
Definition marshalUp (id : Z) (resp : option kms.NodeStatusResponse.t)
  (st : Result (gmap Z (option pb.NodeStatusResponse.t)))
  : Result (gmap Z (option pb.NodeStatusResponse.t)) :=
  match st with
  | Panics => Panics
  | Returned out (Some e) => Returned out (Some e)
  | Returned out None =>
      match NodeStatusResponse.MarshalPB resp
              (Some pb.NodeStatusResponse.zero) with
      | Panics => Panics
      | Returned _ (Some e) => Returned out (Some e)
      | Returned stat None => Returned (<[Go.uint32 id := Some stat]> out) None
      end
  end.

Definition MarshalPB (s : option t) (v : option pbStatusResponse.t)
  : Result pbStatusResponse.t :=
  match s, v with
  | Some s, Some v =>
      match map_fold marshalUp (Returned ∅ None) (NodesUp s) with
      | Panics => Panics
      | Returned up (Some e) =>
          Returned {| pbStatusResponse.NodesUp := up;
                      pbStatusResponse.NodesDown :=
                        pbStatusResponse.NodesDown v |} (Some e)
      | Returned up None =>
          Returned {| pbStatusResponse.NodesUp := up;
                      pbStatusResponse.NodesDown :=
                        kms.rekey Go.uint32 (NodesDown s) |} None
      end
  | _, _ => Panics
  end.

(** One iteration of the loop over [v.NodesUp] in [UnmarshalPB]:
    [stat.UnmarshalPB(resp)] with [stat := new(NodeStatusResponse)]. *)
Definition unmarshalUp (id : Z) (resp : option pb.NodeStatusResponse.t)
  (st : Result (gmap Z (option kms.NodeStatusResponse.t)))
  : Result (gmap Z (option kms.NodeStatusResponse.t)) :=
  match st with
  | Panics => Panics
  | Returned out (Some e) => Returned out (Some e)
  | Returned out None =>
      match NodeStatusResponse.UnmarshalPB
              (Some kms.NodeStatusResponse.zero) resp with
      | Panics => Panics
      | Returned _ (Some e) => Returned out (Some e)
      | Returned stat None => Returned (<[Go.int id := Some stat]> out) None
      end
  end.

Definition UnmarshalPB (s : option t) (v : option pbStatusResponse.t)
  : Result t :=
  match s, v with
  | Some s, Some v =>
      match map_fold unmarshalUp (Returned ∅ None)
              (pbStatusResponse.NodesUp v) with
      | Panics => Panics
      | Returned up (Some e) =>
          Returned {| NodesUp := up; NodesDown := NodesDown s |} (Some e)
      | Returned up None =>
          Returned {| NodesUp := up;
                      NodesDown :=
                        kms.rekey Go.int (pbStatusResponse.NodesDown v) |}
                   None
      end
  | _, _ => Panics
  end.
End StatusResponse.

(** A call returns nil when [allocated] holds and panics when it does
    not; it never returns an error. *)
Definition returnsNilOrPanics {A : Type} (r : Result A) (allocated : Prop)
  : Prop :=
  match r with
  | Returned _ e => e = None ∧ allocated
  | Panics => ¬ allocated
  end.

End ptr.

(** ** The server side of GenerateKey and Decrypt *)

(** The repository holds the client: the handlers that serve the two
    requests are not under src.  Their handling of the key length and of
    the key version is modelled here from the specification and from
    the comments of the request messages; the cipher stays a
    parameter. *)

Module server.

(** The error taxonomy of the specification (section 7). *)
Inductive Failure : Type :=
| Malformed (reason : string)
| NotFound
| AuthenticationFailed.

(** Modelled from the spec: a key version of a key ring, "each with an
    integer version number"; the ring lists its versions in creation
    order. *)
Record KeyVersion : Type := mkKeyVersion {
  version : Z;
  material : list byte
}.

(** Modelled from the spec: key-version addressing (section 4.1), "0
    means use the ring's latest version and any positive integer must
    match an existing version exactly". *)
Definition resolve (ring : list KeyVersion) (v : Z) : option KeyVersion :=
  if v =? 0 then last ring
  else find (λ k, version k =? v) ring.

(** Modelled from the spec: the source of fresh randomness that
    GenerateKey draws key material from; [used] counts the bytes drawn
    so far. *)
Record Entropy : Type := mkEntropy {
  stream : nat → byte;
  used : nat
}.

Definition draw (n : nat) (e : Entropy) : list byte * Entropy :=
  (map (stream e) (seq (used e) n),
   {| stream := stream e; used := (used e + n)%nat |}).

Definition DefaultLength : Z := 32.
Definition MaxLength : Z := 1024.

Section Cipher.
Variable seal : list byte → list byte → list byte → list byte.
Variable open : list byte → list byte → list byte → option (list byte).

(** Modelled from the spec: the GenerateKey handler is not under src.
    "Length is a caller-chosen parameter, default 32 bytes, hard upper
    bound 1024 bytes; out-of-range requests are rejected before any
    cryptographic work occurs"; the message comments add "At most 1024
    (8192 bits). If zero, defaults to 32 (256 bits)."  The handler reads
    the request through the generated accessors. *)
Definition GenerateKey (ring : list KeyVersion) (rng : Entropy)
  (req : option pb.GenerateKeyRequest.t)
  : (pb.GenerateKeyResponse.t + Failure) * Entropy :=
  let length := pb.GenerateKeyRequest.GetLength req in
  if MaxLength <? length then (inr (Malformed "length out of range"), rng)
  else
    let length := if length =? 0 then DefaultLength else length in
    match resolve ring (pb.GenerateKeyRequest.GetVersion req) with
    | None => (inr NotFound, rng)
    | Some key =>
        let '(plaintext, rng') := draw (Z.to_nat length) rng in
        (inl {| pb.GenerateKeyResponse.Version := version key;
                pb.GenerateKeyResponse.Plaintext := plaintext;
                pb.GenerateKeyResponse.Ciphertext :=
                  seal (material key)
                       (pb.GenerateKeyRequest.GetAssociatedData req)
                       plaintext |},
         rng')
    end.

(** Modelled from the spec: the Decrypt handler is not under src.  Its
    failure conditions are "version 0 is invalid (must reference the
    exact version used to encrypt); associated data mismatch; ciphertext
    corrupt/truncated; version not found"; the message comment says of
    the version "Must not be zero." *)
Definition Decrypt (ring : list KeyVersion)
  (req : option pb.DecryptRequest.t) : pb.DecryptResponse.t + Failure :=
  let v := pb.DecryptRequest.GetVersion req in
  if v =? 0 then inr (Malformed "version must not be zero")
  else
    match find (λ k, version k =? v) ring with
    | None => inr NotFound
    | Some key =>
        match open (material key)
                   (pb.DecryptRequest.GetAssociatedData req)
                   (pb.DecryptRequest.GetCiphertext req) with
        | None => inr AuthenticationFailed
        | Some plaintext =>
            inl {| pb.DecryptResponse.Plaintext := plaintext |}
        end
    end.
End Cipher.

End server.

(** ** The registration tables of the generated request types *)

Module generated.

(** A generated message type: its Go name, the index into
    [file_request_proto_msgTypes] of the message info that its [Reset]
    stores (which it does only when [protoimpl.UnsafeEnabled]), the
    index that its [ProtoReflect] uses, and the path its [Descriptor]
    returns. *)
Record MessageType : Type := mkMessageType {
  goName : string;
  resetIndex : Z;
  reflectIndex : Z;
  descriptorPath : list Z
}.

Definition messageTypes : list MessageType :=
  [ mkMessageType "EditClusterRequest" 0 0 [0];
    mkMessageType "CreateKeyRequest" 1 1 [1];
    mkMessageType "AddKeyVersionRequest" 2 2 [2];
    mkMessageType "RemoveKeyVersionRequest" 3 3 [3];
    mkMessageType "EncryptRequest" 4 4 [4];
    mkMessageType "GenerateKeyRequest" 5 5 [5];
    mkMessageType "DecryptRequest" 6 6 [6] ].

(** [make([]protoimpl.MessageInfo, 7)] and [NumMessages: 7]. *)
Definition lenMsgTypes : Z := 7.
Definition NumMessages : Z := 7.

(** [file_request_proto_goTypes], in order. *)
Definition file_request_proto_goTypes : list string :=
  [ "EditClusterRequest"; "CreateKeyRequest"; "AddKeyVersionRequest";
    "RemoveKeyVersionRequest"; "EncryptRequest"; "GenerateKeyRequest";
    "DecryptRequest" ].

(** The indices [i] with [file_request_proto_msgTypes[i].OneofWrappers]
    assigned in [file_request_proto_init]. *)
Definition oneofWrappers : list Z := [1; 2; 5].

(** The indices [i] with [file_request_proto_msgTypes[i].Exporter]
    assigned in [file_request_proto_init], which assigns them only when
    [!protoimpl.UnsafeEnabled]. *)
Definition exporters (unsafeEnabled : bool) : list Z :=
  if unsafeEnabled then [] else [0; 1; 2; 3; 4; 5; 6].

(** The message info that [Reset] stores in the message state:
    [if protoimpl.UnsafeEnabled { mi := &msgTypes[i]; ... }]. *)
Definition resetStores (unsafeEnabled : bool) (t : MessageType)
  : option Z :=
  if unsafeEnabled then Some (resetIndex t) else None.

(** The struct tags with the message type they belong to. *)
Definition fields : list (string * pb.StructTag) :=
  [ ("EditClusterRequest", pb.EditClusterRequest_RemoveIDs);
    ("CreateKeyRequest", pb.CreateKeyRequest_Type);
    ("AddKeyVersionRequest", pb.AddKeyVersionRequest_Type);
    ("RemoveKeyVersionRequest", pb.RemoveKeyVersionRequest_Version);
    ("EncryptRequest", pb.EncryptRequest_Version);
    ("EncryptRequest", pb.EncryptRequest_Plaintext);
    ("EncryptRequest", pb.EncryptRequest_AssociatedData);
    ("GenerateKeyRequest", pb.GenerateKeyRequest_Version);
    ("GenerateKeyRequest", pb.GenerateKeyRequest_AssociatedData);
    ("GenerateKeyRequest", pb.GenerateKeyRequest_Length);
    ("DecryptRequest", pb.DecryptRequest_Version);
    ("DecryptRequest", pb.DecryptRequest_Ciphertext);
    ("DecryptRequest", pb.DecryptRequest_AssociatedData) ]%string.

(** The message types that have a field with explicit presence. *)
Definition withOneof : list string :=
  map fst (List.filter (λ f, pb.oneof (snd f)) fields).

(** The position of a message type in [file_request_proto_goTypes]. *)
Fixpoint indexOf (name : string) (l : list string) : option Z :=
  match l with
  | [] => None
  | x :: l' =>
      if String.eqb x name then Some 0
      else option_map Z.succ (indexOf name l')
  end.

End generated.

(** ** Predicates used in the statements *)

(** The number of nanoseconds a wire duration stands for. *)
Definition exactNanos (x : option durationpb.Duration) : Z :=
  durationpb.GetSeconds x * durationpb.Second + durationpb.GetNanos x.

(** [d] is the [time.Duration] of the wire duration [x]: a 64-bit
    value with the sign of the nanosecond count of [x]; the count itself
    when the whole seconds in nanoseconds and the count both fit 64
    bits; and otherwise the least duration when the seconds are negative
    and the greatest one when they are positive. *)
Definition faithfulDuration (x : option durationpb.Duration) (d : Z) : Prop :=
  Go.is_int64 d = true ∧
  (exactNanos x < 0 → d < 0) ∧
  (exactNanos x = 0 → d = 0) ∧
  (0 < exactNanos x → 0 < d) ∧
  (if Go.is_int64 (durationpb.GetSeconds x * durationpb.Second)
      && Go.is_int64 (exactNanos x)
   then d = exactNanos x
   else if durationpb.GetSeconds x <? 0 then d = Go.MinInt64
        else d = Go.MaxInt64).

(** The branch of [readResponse] that the content type of [r] selects:
    whether it is the binary one, the decoder of the branch and the
    event of calling it. *)
Definition selectsBinary (ContentType ContentTypeBinary : string)
  (r : http.Response) : bool :=
  String.eqb (http.Get (http.Header r) ContentType) ContentTypeBinary.

Definition selectedDecoder (ContentType ContentTypeBinary : string)
  {M : Type} `{kms.Message M} (r : http.Response) : list byte → M + error :=
  if selectsBinary ContentType ContentTypeBinary r
  then kms.proto_Unmarshal else kms.protojson_Unmarshal.

Definition decodingEvent (ContentType ContentTypeBinary : string)
  (r : http.Response) (buf : list byte) : kms.Event :=
  if selectsBinary ContentType ContentTypeBinary r
  then kms.EvProtoUnmarshal buf else kms.EvProtoJSONUnmarshal buf.

(** [conv] sends no two keys of [m] to the same key. *)
Definition distinctUnder {A : Type} (conv : Z → Z) (m : gmap Z A) : Prop :=
  ∀ i j, i ∈ dom m → j ∈ dom m → conv i = conv j → i = j.

(** The field number a [.proto] file declares for a field of a
    message. *)
Definition numberOf (file : list pb.MessageDecl) (msg fld : string)
  : option Z :=
  match find (λ m, String.eqb (pb.mname m) msg) file with
  | Some m =>
      match find (λ f, String.eqb (pb.fname f) fld) (pb.mfields m) with
      | Some f => Some (pb.fnumber f)
      | None => None
      end
  | None => None
  end.

(** A message declaration is well formed: field names, field numbers
    and JSON labels are pairwise distinct and the numbers positive. *)
Definition wellFormedMessage (m : pb.MessageDecl) : Prop :=
  NoDup (map pb.fname (pb.mfields m)) ∧
  NoDup (map pb.fnumber (pb.mfields m)) ∧
  NoDup (map pb.json_name (pb.mfields m)) ∧
  Forall (λ f, 1 <= pb.fnumber f) (pb.mfields m).

(** [readResponse] into [T] returns nil exactly when it was given
    enough bytes that the selected decoder accepts, and every error it
    returns precedes the call of [UnmarshalPB]: [v] is then as it
    was. *)
Definition failsBeforeUnmarshalPB (ContentType ContentTypeBinary : string)
  (M T : Type) `{kms.Message M} `{kms.Unmarshaler T M} : Prop :=
  ∀ (r : http.Response) (v : T),
    let o := kms.readResponse ContentType ContentTypeBinary r v in
    let n := Z.to_nat (http.ContentLength r) in
    (kms.err o = None
     ↔ 0 <= http.ContentLength r ∧
       (n ≤ length (http.Body r))%nat ∧
       ∃ m : M, selectedDecoder ContentType ContentTypeBinary r
                  (take n (http.Body r)) = inl m) ∧
    (∀ e, kms.err o = Some e →
          kms.value o = v ∧ kms.EvUnmarshalPB ∉ kms.trace o).

(** ** Sample values *)

Module sample.

Definition ms (n : Z) : Z := n * 1000000.

(** A three-node cluster as node 0, its leader, reports it. *)
Definition leader : kms.NodeStatusResponse.t :=
  {| kms.NodeStatusResponse.Version := "2023-12-01T16-06-52Z";
     kms.NodeStatusResponse.APIVersion := "v1";
     kms.NodeStatusResponse.Endpoint := "10.0.0.1:7373";
     kms.NodeStatusResponse.Role := "Leader";
     kms.NodeStatusResponse.Commit := 42;
     kms.NodeStatusResponse.Nodes :=
       <[0 := "10.0.0.1:7373"]> (<[1 := "10.0.0.2:7373"]>
         (<[2 := "10.0.0.3:7373"]> ∅));
     kms.NodeStatusResponse.ID := 0;
     kms.NodeStatusResponse.LeaderID := 0;
     kms.NodeStatusResponse.LastHeartbeat := ms 40;
     kms.NodeStatusResponse.HeartbeatInterval := ms 100;
     kms.NodeStatusResponse.ElectionTimeout := ms 300;
     kms.NodeStatusResponse.UpTime := ms 3600000;
     kms.NodeStatusResponse.OS := "linux";
     kms.NodeStatusResponse.CPUArch := "amd64";
     kms.NodeStatusResponse.CPUs := 8;
     kms.NodeStatusResponse.UsableCPUs := 4;
     kms.NodeStatusResponse.HeapMemInUse := 1048576;
     kms.NodeStatusResponse.StackMemInUse := 65536 |}.

(** The same node with an ID that a [uint32] does not hold. *)
Definition wideID : kms.NodeStatusResponse.t :=
  {| kms.NodeStatusResponse.Version := "2023-12-01T16-06-52Z";
     kms.NodeStatusResponse.APIVersion := "v1";
     kms.NodeStatusResponse.Endpoint := "10.0.0.1:7373";
     kms.NodeStatusResponse.Role := "Leader";
     kms.NodeStatusResponse.Commit := 42;
     kms.NodeStatusResponse.Nodes := ∅;
     kms.NodeStatusResponse.ID := 4294967297;
     kms.NodeStatusResponse.LeaderID := 0;
     kms.NodeStatusResponse.LastHeartbeat := ms 40;
     kms.NodeStatusResponse.HeartbeatInterval := ms 100;
     kms.NodeStatusResponse.ElectionTimeout := ms 300;
     kms.NodeStatusResponse.UpTime := 0;
     kms.NodeStatusResponse.OS := "linux";
     kms.NodeStatusResponse.CPUArch := "amd64";
     kms.NodeStatusResponse.CPUs := 8;
     kms.NodeStatusResponse.UsableCPUs := 4;
     kms.NodeStatusResponse.HeapMemInUse := 1048576;
     kms.NodeStatusResponse.StackMemInUse := 65536 |}.

(** What a follower without a leader sends: a negative leader ID and a
    negative last-heartbeat duration. *)
Definition orphanWire : pb.NodeStatusResponse.t :=
  {| pb.NodeStatusResponse.Version := "2023-12-01T16-06-52Z";
     pb.NodeStatusResponse.APIVersion := "v1";
     pb.NodeStatusResponse.Addr := "10.0.0.2:7373";
     pb.NodeStatusResponse.UpTime := Some (durationpb.mkDuration 3600 0);
     pb.NodeStatusResponse.Role := "Candidate";
     pb.NodeStatusResponse.Commit := 41;
     pb.NodeStatusResponse.Nodes := <[4294967295 := "10.0.0.9:7373"]> ∅;
     pb.NodeStatusResponse.ID := 1;
     pb.NodeStatusResponse.LeaderID := -1;
     pb.NodeStatusResponse.LastHeartbeat :=
       Some (durationpb.mkDuration (-1) (-500000000));
     pb.NodeStatusResponse.HeartbeatInterval :=
       Some (durationpb.mkDuration 0 100000000);
     pb.NodeStatusResponse.ElectionTimeout := None;
     pb.NodeStatusResponse.OS := "linux";
     pb.NodeStatusResponse.Arch := "arm64";
     pb.NodeStatusResponse.CPUs := 4294967295;
     pb.NodeStatusResponse.UsableCPUs := 2;
     pb.NodeStatusResponse.HeapMemInUse := 1048576;
     pb.NodeStatusResponse.StackMemInUse := 65536;
     pb.NodeStatusResponse.HSMs := [];
     pb.NodeStatusResponse.ConfiguredHSMs := [] |}.

(** A cluster status in which node 1 is listed as up and as down. *)
Definition overlapping : pb.StatusResponse.t :=
  {| pb.StatusResponse.NodesUp := <[1 := orphanWire]> ∅;
     pb.StatusResponse.NodesDown := <[1 := "10.0.0.2:7373"]> ∅ |}.

(** A cluster status with node 1 up and node 2 down. *)
Definition partitioned : pb.StatusResponse.t :=
  {| pb.StatusResponse.NodesUp := <[1 := orphanWire]> ∅;
     pb.StatusResponse.NodesDown := <[2 := "10.0.0.3:7373"]> ∅ |}.

(** A stand-in for the protobuf library's codecs on [DecryptResponse],
    to run [readResponse] on concrete bytes: the binary form is the
    byte 0x0a followed by the plaintext, the textual form the byte
    0x7b followed by the plaintext. *)
Definition codec : kms.Message pb.DecryptResponse.t :=
  {| kms.proto_Marshal m := x0a :: pb.DecryptResponse.Plaintext m;
     kms.proto_Unmarshal buf :=
       match buf with
       | x0a :: p => inl (pb.DecryptResponse.mk p)
       | _ => inr (ErrProto "cannot parse invalid wire-format data")
       end;
     kms.protojson_Marshal m := x7b :: pb.DecryptResponse.Plaintext m;
     kms.protojson_Unmarshal buf :=
       match buf with
       | x7b :: p => inl (pb.DecryptResponse.mk p)
       | _ => inr (ErrProtoJSON "syntax error")
       end |}.

Definition ContentType : string := "Content-Type".
Definition binaryType : string := "application/x-protobuf".
Definition jsonType : string := "application/json".

Definition binaryHeader : gmap string (list string) :=
  <[ContentType := [binaryType]]> ∅.
Definition jsonHeader : gmap string (list string) :=
  <[ContentType := [jsonType]]> ∅.

Definition hello : pb.DecryptResponse.t :=
  pb.DecryptResponse.mk [x68; x65; x6c; x6c; x6f].

(** A response that declares no content length. *)
Definition noLength : http.Response :=
  http.mkResponse (-1) binaryHeader [x0a; x68; x65; x6c; x6c; x6f].

(** A binary response whose body is not a message. *)
Definition garbled : http.Response :=
  http.mkResponse 3 binaryHeader [xff; xff; xff; x00].

(** A key ring whose latest version is 3, an entropy source and a
    cipher that stores the plaintext after its key and associated data,
    to run the server model. *)
Definition ring : list server.KeyVersion :=
  [ server.mkKeyVersion 1 [x01]; server.mkKeyVersion 2 [x02];
    server.mkKeyVersion 3 [x03] ].

Definition entropy : server.Entropy :=
  server.mkEntropy (λ i, if Nat.even i then xa5 else x5a) 0.

Definition seal (key ad plaintext : list byte) : list byte :=
  key ++ ad ++ plaintext.

Definition open (key ad ciphertext : list byte) : option (list byte) :=
  if bool_decide (take (length (key ++ ad)) ciphertext = key ++ ad)
  then Some (drop (length (key ++ ad)) ciphertext)
  else None.

Definition wantKey (l : option Z) : pb.GenerateKeyRequest.t :=
  pb.GenerateKeyRequest.mk 0 [x63; x74; x78] l.

Definition decryptLatest : pb.DecryptRequest.t :=
  pb.DecryptRequest.mk 0 [x03; x63; x74; x78; x68; x69] [x63; x74; x78].

Definition removeTwo : pb.EditClusterRequest.t :=
  pb.EditClusterRequest.mk [3; 7].

Definition encryptHello : pb.EncryptRequest.t :=
  pb.EncryptRequest.mk 0 [x68; x65; x6c; x6c; x6f] [x63; x74; x78].

(** A cluster status as node 0 sees it: itself up, node 2 down. *)
Definition cluster : kms.StatusResponse.t :=
  {| kms.StatusResponse.NodesUp := <[0 := leader]> ∅;
     kms.StatusResponse.NodesDown := <[2 := "10.0.0.3:7373"]> ∅ |}.

(** Two unreachable nodes whose IDs agree modulo 2^32. *)
Definition colliding : kms.StatusResponse.t :=
  {| kms.StatusResponse.NodesUp := ∅;
     kms.StatusResponse.NodesDown :=
       <[1 := "10.0.0.2:7373"]> (<[4294967297 := "10.0.0.9:7373"]> ∅) |}.

(** A response that announces ten bytes and holds two. *)
Definition truncated : http.Response :=
  http.mkResponse 10 jsonHeader [x7b; x68].


(** A wire EncryptResponse of key version 3. *)
Definition sealed : pb.EncryptResponse.t :=
  pb.EncryptResponse.mk 3 [x03; x68; x69].

(** A cluster status whose entry for node 1 is a nil pointer. *)
Definition nilNode : ptr.StatusResponse.t :=
  {| ptr.StatusResponse.NodesUp := <[0 := Some leader]> (<[1 := None]> ∅);
     ptr.StatusResponse.NodesDown := ∅ |}.

End sample.

(** * Properties *)

(** ** The definitions at work *)

Example uint32_of_minus_one : Go.uint32 (-1) = 4294967295.
Proof. reflexivity. Qed.

Example int_of_max_uint32 : Go.int 4294967295 = 4294967295.
Proof. reflexivity. Qed.

Example New_negative :
  durationpb.New (-1500000000) = durationpb.mkDuration (-1) (-500000000).
Proof. reflexivity. Qed.

Example AsDuration_negative :
  durationpb.AsDuration (Some (durationpb.mkDuration (-1) (-500000000)))
  = -1500000000.
Proof. reflexivity. Qed.

Example AsDuration_absent : durationpb.AsDuration None = 0.
Proof. reflexivity. Qed.

Example AsDuration_saturates :
  durationpb.AsDuration (Some (durationpb.mkDuration 9223372037 0))
  = Go.MaxInt64 ∧
  durationpb.AsDuration (Some (durationpb.mkDuration (-9223372037) 0))
  = Go.MinInt64.
Proof. split; reflexivity. Qed.

Example leader_on_the_wire :
  let w := (kms.NodeStatusResponse.MarshalPB sample.leader
              pb.NodeStatusResponse.zero).1 in
  pb.NodeStatusResponse.Addr w = "10.0.0.1:7373"%string ∧
  pb.NodeStatusResponse.Nodes w !! 2 = Some "10.0.0.3:7373"%string ∧
  pb.NodeStatusResponse.ElectionTimeout w
  = Some (durationpb.mkDuration 0 300000000) ∧
  pb.NodeStatusResponse.UpTime w = None.
Proof. repeat split. Qed.

Example GetLength_omitted :
  pb.GenerateKeyRequest.GetLength (Some (sample.wantKey None)) = 0 ∧
  pb.GenerateKeyRequest.GetLength None = 0 ∧
  pb.GenerateKeyRequest.GetLength (Some (sample.wantKey (Some 16))) = 16.
Proof. repeat split. Qed.

Example ReadFull_short :
  io.ReadFull [x01; x02] 3 = ([x01; x02; x00], [], Some ErrUnexpectedEOF) ∧
  io.ReadFull [] 3 = ([x00; x00; x00], [], Some EOF) ∧
  io.ReadFull [x01; x02] 0 = ([], [x01; x02], None).
Proof. repeat split. Qed.

Example readResponse_hello :
  @kms.readResponse sample.ContentType sample.binaryType _ _
    sample.codec kms.DecryptResponse_Unmarshaler
    (http.mkResponse 6 sample.jsonHeader [x7b; x68; x65; x6c; x6c; x6f])
    kms.DecryptResponse.zero
  = kms.mkOutcome (kms.DecryptResponse.mk [x68; x65; x6c; x6c; x6f]) None []
      [kms.EvReadFull 6;
       kms.EvProtoJSONUnmarshal [x7b; x68; x65; x6c; x6c; x6f];
       kms.EvUnmarshalPB].
Proof. reflexivity. Qed.

Example encryptHello_members :
  pb.jsonMembers (pb.EncryptRequest_fields sample.encryptHello)
  = [("plaintext"%string, pb.VBytes [x68; x65; x6c; x6c; x6f]);
     ("associated_data"%string, pb.VBytes [x63; x74; x78])].
Proof. reflexivity. Qed.

(** ** Integer conversions *)

Ltac unfold_go :=
  unfold Go.uint32, Go.uint64, Go.uint, Go.int32, Go.int64, Go.int,
    Go.uwrap, Go.swrap, Go.is_uint32, Go.is_uint64, Go.is_uint,
    Go.is_int32, Go.is_int64, Go.is_int, Go.MinInt64, Go.MaxInt64,
    Go.intSize in *.

Ltac bool_to_Z :=
  repeat match goal with
  | H : _ && _ = true |- _ => apply andb_prop in H; destruct H
  | H : (_ <=? _) = true |- _ => apply Z.leb_le in H
  | H : (_ <? _) = true |- _ => apply Z.ltb_lt in H
  end.

Lemma uint32_range z : 0 <= Go.uint32 z < 2 ^ 32.
Proof. unfold_go. apply Z.mod_pos_bound. lia. Qed.

Lemma uint32_small z : Go.is_uint32 z = true → Go.uint32 z = z.
Proof. intros H. unfold_go. bool_to_Z. apply Z.mod_small. lia. Qed.

Lemma uint32_fixed z : Go.uint32 z = z → Go.is_uint32 z = true.
Proof.
  intros H. pose proof (uint32_range z) as R. rewrite H in R.
  unfold Go.is_uint32. apply andb_true_intro.
  split; [apply Z.leb_le | apply Z.ltb_lt]; lia.
Qed.

Lemma int64_small z : Go.is_int64 z = true → Go.int64 z = z.
Proof.
  intros H. unfold_go. bool_to_Z.
  change (2 ^ (64 - 1)) with 9223372036854775808 in *.
  change (2 ^ 63) with 9223372036854775808 in *.
  rewrite Z.mod_small; lia.
Qed.

Lemma int64_range z : Go.is_int64 (Go.int64 z) = true.
Proof.
  unfold_go.
  change (2 ^ (64 - 1)) with 9223372036854775808.
  change (2 ^ 63) with 9223372036854775808.
  pose proof (Z.mod_pos_bound (z + 9223372036854775808) (2 ^ 64) eq_refl).
  change (2 ^ 64) with 18446744073709551616 in *.
  apply andb_true_intro. split; [apply Z.leb_le | apply Z.leb_le]; lia.
Qed.

Lemma int_small z : Go.is_int z = true → Go.int z = z.
Proof.
  intros H. unfold_go. bool_to_Z.
  change (2 ^ (64 - 1)) with 9223372036854775808 in *.
  rewrite Z.mod_small; lia.
Qed.

Lemma int_of_uint32 z : Go.is_uint32 z = true → Go.int z = z.
Proof.
  intros H. apply int_small. unfold_go. bool_to_Z.
  change (2 ^ 32) with 4294967296 in *.
  change (2 ^ (64 - 1)) with 9223372036854775808.
  apply andb_true_intro. split; [apply Z.leb_le | apply Z.ltb_lt]; lia.
Qed.

Lemma uint_of_uint32 z : Go.is_uint32 z = true → Go.uint z = z.
Proof.
  intros H. unfold_go. bool_to_Z.
  change (2 ^ 32) with 4294967296 in *.
  apply Z.mod_small. change (2 ^ 64) with 18446744073709551616. lia.
Qed.

Lemma int32_small z : Go.is_int32 z = true → Go.int32 z = z.
Proof.
  intros H. unfold_go. bool_to_Z.
  change (2 ^ (32 - 1)) with 2147483648 in *.
  change (2 ^ 31) with 2147483648 in *.
  rewrite Z.mod_small; lia.
Qed.

(** ** The duration conversions *)

Lemma swrap64_cases z :
  ∃ k, Go.int64 z = z - k * 18446744073709551616 ∧
       -9223372036854775808 <= Go.int64 z < 9223372036854775808.
Proof.
  unfold Go.int64, Go.swrap.
  change (2 ^ (64 - 1)) with 9223372036854775808.
  change (2 ^ 64) with 18446744073709551616.
  exists ((z + 9223372036854775808) / 18446744073709551616).
  pose proof (Z.div_mod (z + 9223372036854775808) 18446744073709551616).
  pose proof (Z.mod_pos_bound (z + 9223372036854775808) 18446744073709551616).
  lia.
Qed.

Lemma quot_rem_Second d :
  d = durationpb.Second * Z.quot d durationpb.Second + Z.rem d durationpb.Second ∧
  (0 <= d → 0 <= Z.rem d durationpb.Second < durationpb.Second) ∧
  (d <= 0 → - durationpb.Second < Z.rem d durationpb.Second <= 0).
Proof.
  unfold durationpb.Second. split; [apply Z.quot_rem'|].
  split; intros.
  - apply Z.rem_bound_pos; lia.
  - pose proof (Z.rem_bound_pos (- d) 1000000000) as B.
    rewrite Z.rem_opp_l in B by lia. lia.
Qed.

Lemma New_exact d :
  Go.is_int64 d = true →
  durationpb.New d =
    durationpb.mkDuration (Z.quot d durationpb.Second) (Z.rem d durationpb.Second).
Proof.
  intros Hd. unfold durationpb.New.
  destruct (quot_rem_Second d) as (Hqr & Hpos & Hneg).
  unfold Go.is_int64, Go.MinInt64, Go.MaxInt64 in Hd. bool_to_Z.
  change (2 ^ 63) with 9223372036854775808 in *.
  unfold durationpb.Second in *.
  assert (Hq : Go.int64 (d ÷ 1000000000) = d ÷ 1000000000).
  { apply int64_small. unfold Go.is_int64, Go.MinInt64, Go.MaxInt64.
    change (2 ^ 63) with 9223372036854775808.
    apply andb_true_intro; split; apply Z.leb_le; lia. }
  rewrite Hq.
  assert (Hm : Go.int64 (d ÷ 1000000000 * 1000000000) = d ÷ 1000000000 * 1000000000).
  { apply int64_small. unfold Go.is_int64, Go.MinInt64, Go.MaxInt64.
    change (2 ^ 63) with 9223372036854775808.
    apply andb_true_intro; split; apply Z.leb_le; lia. }
  rewrite Hm.
  replace (d - d ÷ 1000000000 * 1000000000) with (Z.rem d 1000000000) by lia.
  rewrite (int64_small (Z.rem d 1000000000)).
  2:{ unfold Go.is_int64, Go.MinInt64, Go.MaxInt64.
    change (2 ^ 63) with 9223372036854775808.
    apply andb_true_intro; split; apply Z.leb_le; lia. }
  rewrite int32_small; [reflexivity|].
  unfold Go.is_int32. change (2 ^ 31) with 2147483648.
  apply andb_true_intro; split; [apply Z.leb_le | apply Z.ltb_lt]; lia.
Qed.

Lemma AsDuration_New d :
  Go.is_int64 d = true → durationpb.AsDuration (pb.Duration d) = d.
Proof.
  intros Hd. unfold pb.Duration. rewrite New_exact by exact Hd.
  unfold durationpb.AsDuration. cbn [durationpb.GetSeconds durationpb.GetNanos
    durationpb.Seconds durationpb.Nanos].
  destruct (quot_rem_Second d) as (Hqr & Hpos & Hneg).
  unfold Go.is_int64, Go.MinInt64, Go.MaxInt64 in Hd. bool_to_Z.
  change (2 ^ 63) with 9223372036854775808 in *.
  set (q := d ÷ durationpb.Second) in *.
  set (r := Z.rem d durationpb.Second) in *.
  assert (Hm : Go.int64 (q * durationpb.Second) = q * durationpb.Second).
  { apply int64_small. unfold Go.is_int64, Go.MinInt64, Go.MaxInt64.
    change (2 ^ 63) with 9223372036854775808. unfold durationpb.Second in *.
    apply andb_true_intro; split; apply Z.leb_le; lia. }
  rewrite Hm.
  replace (q * durationpb.Second + r) with d by lia.
  rewrite (int64_small d).
  2:{ unfold Go.is_int64, Go.MinInt64, Go.MaxInt64.
      change (2 ^ 63) with 9223372036854775808.
      apply andb_true_intro; split; apply Z.leb_le; lia. }
  rewrite Z.quot_mul by (unfold durationpb.Second; lia).
  rewrite Z.eqb_refl. cbn [negb orb].
  unfold durationpb.Second in *.
  destruct (Z.ltb_spec q 0), (Z.ltb_spec r 0), (Z.ltb_spec 0 d),
    (Z.ltb_spec 0 q), (Z.ltb_spec 0 r), (Z.ltb_spec d 0);
    cbn [andb orb]; try reflexivity; lia.
Qed.

Lemma AsDuration_wire secs nanos :
  Go.is_int64 secs = true → Go.is_int32 nanos = true →
  let exact := secs * durationpb.Second + nanos in
  let r := durationpb.AsDuration (Some (durationpb.mkDuration secs nanos)) in
  (Go.MinInt64 <= r <= Go.MaxInt64) ∧
  (exact < 0 → r < 0) ∧
  (0 < exact → 0 < r) ∧
  (Go.MinInt64 <= secs * durationpb.Second <= Go.MaxInt64 →
   Go.MinInt64 <= exact <= Go.MaxInt64 → r = exact).
Proof.
  intros Hs Hn exact r. subst exact r.
  unfold durationpb.AsDuration. cbn [durationpb.GetSeconds durationpb.GetNanos
    durationpb.Seconds durationpb.Nanos].
  destruct (swrap64_cases (secs * durationpb.Second)) as (k1 & E1 & R1).
  set (d1 := Go.int64 (secs * durationpb.Second)) in *.
  destruct (swrap64_cases (d1 + nanos)) as (k2 & E2 & R2).
  set (d2 := Go.int64 (d1 + nanos)) in *.
  destruct (quot_rem_Second d1) as (Hqr & Hpos & Hneg).
  assert (Hq : d1 = secs * durationpb.Second → d1 ÷ durationpb.Second = secs).
  { intros ->. apply Z.quot_mul. unfold durationpb.Second. lia. }
  unfold Go.is_int64, Go.is_int32, Go.MinInt64, Go.MaxInt64 in *. bool_to_Z.
  change (2 ^ 63) with 9223372036854775808 in *.
  change (2 ^ 31) with 2147483648 in *.
  unfold durationpb.Second in *.
  destruct (Z.eqb_spec (d1 ÷ 1000000000) secs) as [Heq|Hne]; cbn [negb orb].
  - destruct (Z.ltb_spec secs 0), (Z.ltb_spec nanos 0), (Z.ltb_spec 0 d2),
      (Z.ltb_spec 0 secs), (Z.ltb_spec 0 nanos), (Z.ltb_spec d2 0);
      cbn [andb orb]; lia.
  - destruct (Z.ltb_spec secs 0), (Z.ltb_spec 0 secs); lia.
Qed.

Lemma AsDuration_exact_or_saturated secs nanos :
  Go.is_int64 secs = true → Go.is_int32 nanos = true →
  let exact := secs * durationpb.Second + nanos in
  let r := durationpb.AsDuration (Some (durationpb.mkDuration secs nanos)) in
  if Go.is_int64 (secs * durationpb.Second) && Go.is_int64 exact
  then r = exact
  else if secs <? 0 then r = Go.MinInt64 else r = Go.MaxInt64.
Proof.
  intros Hs Hn exact r. subst exact r.
  unfold durationpb.AsDuration. cbn [durationpb.GetSeconds durationpb.GetNanos
    durationpb.Seconds durationpb.Nanos].
  destruct (swrap64_cases (secs * durationpb.Second)) as (k1 & E1 & R1).
  set (d1 := Go.int64 (secs * durationpb.Second)) in *.
  destruct (swrap64_cases (d1 + nanos)) as (k2 & E2 & R2).
  set (d2 := Go.int64 (d1 + nanos)) in *.
  destruct (quot_rem_Second d1) as (Hqr & Hpos & Hneg).
  assert (Hq : d1 = secs * durationpb.Second → d1 ÷ durationpb.Second = secs).
  { intros ->. apply Z.quot_mul. unfold durationpb.Second. lia. }
  unfold Go.is_int64, Go.is_int32, Go.MinInt64, Go.MaxInt64 in *. bool_to_Z.
  change (2 ^ 63) with 9223372036854775808 in *.
  change (2 ^ 31) with 2147483648 in *.
  unfold durationpb.Second in *.
  repeat match goal with
         | |- context [?a <=? ?b] => destruct (Z.leb_spec a b)
         end; cbn [andb];
    destruct (Z.eqb_spec (d1 ÷ 1000000000) secs) as [Heq|Hne]; cbn [negb orb];
    try (exfalso; lia);
    repeat match goal with
           | |- context [?a <? ?b] => destruct (Z.ltb_spec a b)
           end; cbn [andb orb]; lia.
Qed.

(** The nanosecond count fits 64 bits, the whole seconds in nanoseconds
    do not: the result is the greatest duration. *)
Example AsDuration_count_fits_seconds_do_not :
  Go.is_int64 (9223372037 * durationpb.Second + -2147483648) = true ∧
  durationpb.AsDuration (Some (durationpb.mkDuration 9223372037 (-2147483648)))
  = Go.MaxInt64.
Proof. split; reflexivity. Qed.

(** ** Re-keying a map *)

Section rekey.
Context {A : Type}.
Implicit Types (m : gmap Z A) (conv : Z → Z).

(** The keys of the re-keyed map are the images of the keys. *)
Lemma rekey_dom conv m :
  dom (kms.rekey conv m) = set_map conv (dom m).
Proof.
  unfold kms.rekey.
  apply (map_fold_weak_ind (λ out m, dom out = set_map conv (dom m))).
  - by rewrite !dom_empty_L, set_map_empty.
  - intros i x m' out Hi IH.
    by rewrite !dom_insert_L, IH, set_map_union_L, set_map_singleton_L.
Qed.

(** A conversion that fixes every key of the map leaves the map as it
    is. *)
Lemma rekey_fixed conv m :
  map_Forall (λ k _, conv k = k) m → kms.rekey conv m = m.
Proof.
  unfold kms.rekey.
  apply (map_fold_weak_ind
           (λ out m, map_Forall (λ k _, conv k = k) m → out = m)).
  - done.
  - intros i x m' out Hi IH Hall.
    apply map_Forall_insert in Hall as [Hc Hall]; [|done].
    rewrite Hc, IH; done.
Qed.
End rekey.

(** ** NodeStatusResponse: the round trip *)

Ltac by_leb := apply andb_true_intro; split; apply Z.leb_le; lia.

(** C2 (amended).  For every NodeStatusResponse [x] whose node ID, Nodes
    keys and CPU counts are values a [uint32] holds, MarshalPB followed
    by UnmarshalPB gives back every field of [x] other than [UpTime]:
    the result with its [UpTime] set to that of [x] is [x].  Nothing is
    stated about the [UpTime] of the result. *)
Theorem C2_roundtrip_except_UpTime
  (x s0 : kms.NodeStatusResponse.t) (v0 : pb.NodeStatusResponse.t) :
  kms.NodeStatusResponse.wf x →
  kms.NodeStatusResponse.fitsWire x →
  let v := (kms.NodeStatusResponse.MarshalPB x v0).1 in
  let y := (kms.NodeStatusResponse.UnmarshalPB s0 v).1 in
  kms.NodeStatusResponse.withUpTime (kms.NodeStatusResponse.UpTime x) y = x.
Proof.
  intros (_ & _ & _ & HL & Hh & Hi & He & _) (HN & HID & HC & HU).
  destruct x; cbn in *.
  unfold kms.NodeStatusResponse.withUpTime; cbn.
  rewrite !AsDuration_New by assumption.
  rewrite (rekey_fixed Go.uint32 Nodes).
  2:{ intros k a Hk. apply uint32_small. exact (HN k a Hk). }
  rewrite (rekey_fixed Go.int Nodes).
  2:{ intros k a Hk. apply int_of_uint32. exact (HN k a Hk). }
  rewrite !uint32_small by assumption.
  rewrite (int_of_uint32 ID), !uint_of_uint32 by assumption.
  rewrite (int64_small LeaderID).
  2:{ unfold_go. bool_to_Z. change (2 ^ (64 - 1)) with (2 ^ 63) in *.
      by_leb. }
  rewrite (int_small LeaderID) by assumption.
  reflexivity.
Qed.

Ltac map_Forall_concrete :=
  repeat (apply map_Forall_insert_2; [reflexivity|]); apply map_Forall_empty.

Lemma leader_wf : kms.NodeStatusResponse.wf sample.leader.
Proof. repeat split; try reflexivity. map_Forall_concrete. Qed.

Lemma leader_fitsWire : kms.NodeStatusResponse.fitsWire sample.leader.
Proof. repeat split; try reflexivity. map_Forall_concrete. Qed.

(** The round trip of [sample.leader]. *)
Lemma C2_roundtrip_witness :
  kms.NodeStatusResponse.wf sample.leader ∧
  kms.NodeStatusResponse.fitsWire sample.leader ∧
  kms.NodeStatusResponse.withUpTime
    (kms.NodeStatusResponse.UpTime sample.leader)
    (kms.NodeStatusResponse.UnmarshalPB kms.NodeStatusResponse.zero
       (kms.NodeStatusResponse.MarshalPB sample.leader
          pb.NodeStatusResponse.zero).1).1
  = sample.leader.
Proof.
  split; [exact leader_wf|]. split; [exact leader_fitsWire|].
  exact (C2_roundtrip_except_UpTime sample.leader
           kms.NodeStatusResponse.zero pb.NodeStatusResponse.zero
           leader_wf leader_fitsWire).
Defined.

(** C2 fails as stated.  The round trip of [sample.leader] into a fresh
    NodeStatusResponse loses its [UpTime] (one hour becomes zero), and
    the round trip of [sample.wideID] changes its [ID] (2^32 + 1 becomes
    1). *)
Lemma C2_roundtrip_counterexample :
  (kms.NodeStatusResponse.UnmarshalPB kms.NodeStatusResponse.zero
     (kms.NodeStatusResponse.MarshalPB sample.leader
        pb.NodeStatusResponse.zero).1).1 ≠ sample.leader
  ∧
  (kms.NodeStatusResponse.UnmarshalPB kms.NodeStatusResponse.zero
     (kms.NodeStatusResponse.MarshalPB sample.wideID
        pb.NodeStatusResponse.zero).1).1 ≠ sample.wideID.
Proof.
  split; intros H.
  - apply (f_equal kms.NodeStatusResponse.UpTime) in H. discriminate H.
  - apply (f_equal kms.NodeStatusResponse.ID) in H. discriminate H.
Qed.

(** ** StatusResponse: the loops over the node maps *)

Lemma marshalUp_fold (m : gmap Z kms.NodeStatusResponse.t) :
  (map_fold kms.StatusResponse.marshalUp (∅, None) m).2 = None ∧
  dom (map_fold kms.StatusResponse.marshalUp (∅, None) m).1
  = set_map Go.uint32 (dom m).
Proof.
  apply (map_fold_weak_ind
           (λ st m, st.2 = None ∧ dom st.1 = set_map Go.uint32 (dom m))).
  - split; [done|]. cbn. by rewrite !dom_empty_L, set_map_empty.
  - intros i x m' [out e] Hi [He IH]. cbn in He, IH. subst e. cbn.
    split; [done|].
    by rewrite !dom_insert_L, IH, set_map_union_L, set_map_singleton_L.
Qed.

Lemma unmarshalUp_fold (m : gmap Z pb.NodeStatusResponse.t) :
  (map_fold kms.StatusResponse.unmarshalUp (∅, None) m).2 = None ∧
  dom (map_fold kms.StatusResponse.unmarshalUp (∅, None) m).1
  = set_map Go.int (dom m).
Proof.
  apply (map_fold_weak_ind
           (λ st m, st.2 = None ∧ dom st.1 = set_map Go.int (dom m))).
  - split; [done|]. cbn. by rewrite !dom_empty_L, set_map_empty.
  - intros i x m' [out e] Hi [He IH]. cbn in He, IH. subst e. cbn.
    split; [done|].
    by rewrite !dom_insert_L, IH, set_map_union_L, set_map_singleton_L.
Qed.

(** A conversion that fixes every element of a set maps the set to
    itself. *)
Lemma set_map_fixed (conv : Z → Z) (X : gset Z) :
  (∀ k, k ∈ X → conv k = k) → set_map conv X = X.
Proof.
  intros Hf. apply set_eq. intros k. rewrite elem_of_map. split.
  - intros (y & -> & Hy). by rewrite Hf.
  - intros Hk. exists k. split; [symmetry; by apply Hf | done].
Qed.

Lemma dom_int_of_uint32 {A : Type} (m : gmap Z A) :
  map_Forall (λ id _, Go.is_uint32 id = true) m →
  set_map Go.int (dom m) = dom m.
Proof.
  intros Hm. apply set_map_fixed. intros k Hk.
  apply elem_of_dom in Hk as [a Ha]. apply int_of_uint32. exact (Hm k a Ha).
Qed.

(** C7 (amended).  StatusResponse.UnmarshalPB returns nil and gives
    [NodesUp] and [NodesDown] the key sets of the wire message's
    nodes_up and nodes_down; so when the two wire key sets are disjoint,
    the key sets of the resulting StatusResponse are disjoint.  The
    conversion adds no check of its own. *)
Theorem C7_UnmarshalPB_keeps_disjoint
  (s0 : kms.StatusResponse.t) (v : pb.StatusResponse.t) :
  pb.StatusResponse.wf v →
  dom (pb.StatusResponse.NodesUp v) ## dom (pb.StatusResponse.NodesDown v) →
  let r := kms.StatusResponse.UnmarshalPB s0 v in
  r.2 = None ∧
  dom (kms.StatusResponse.NodesUp r.1) = dom (pb.StatusResponse.NodesUp v) ∧
  dom (kms.StatusResponse.NodesDown r.1)
  = dom (pb.StatusResponse.NodesDown v) ∧
  dom (kms.StatusResponse.NodesUp r.1)
  ## dom (kms.StatusResponse.NodesDown r.1).
Proof.
  intros [Hup Hdown] Hdisj r. subst r.
  unfold kms.StatusResponse.UnmarshalPB.
  destruct (unmarshalUp_fold (pb.StatusResponse.NodesUp v)) as [He Hd].
  destruct (map_fold _ _ _) as [up e]. cbn in He, Hd. subst e. cbn.
  rewrite Hd, rekey_dom, !dom_int_of_uint32 by assumption.
  done.
Qed.

Lemma partitioned_wf : pb.StatusResponse.wf sample.partitioned.
Proof. split; map_Forall_concrete. Qed.

Lemma partitioned_disjoint :
  dom (pb.StatusResponse.NodesUp sample.partitioned)
  ## dom (pb.StatusResponse.NodesDown sample.partitioned).
Proof.
  cbn. rewrite !dom_insert_L, !dom_empty_L.
  intros k Hup Hdown.
  apply elem_of_union in Hup as [Hup|Hup]; [|by apply elem_of_empty in Hup].
  apply elem_of_union in Hdown as [Hdown|Hdown];
    [|by apply elem_of_empty in Hdown].
  apply elem_of_singleton in Hup, Hdown. lia.
Qed.

(** [sample.partitioned], node 1 up and node 2 down, unmarshalled. *)
Lemma C7_disjoint_witness :
  let r := kms.StatusResponse.UnmarshalPB kms.StatusResponse.zero
             sample.partitioned in
  pb.StatusResponse.wf sample.partitioned ∧
  dom (pb.StatusResponse.NodesUp sample.partitioned)
  ## dom (pb.StatusResponse.NodesDown sample.partitioned) ∧
  r.2 = None ∧
  dom (kms.StatusResponse.NodesUp r.1)
  ## dom (kms.StatusResponse.NodesDown r.1).
Proof.
  split; [exact partitioned_wf|]. split; [exact partitioned_disjoint|].
  pose proof (C7_UnmarshalPB_keeps_disjoint kms.StatusResponse.zero
                sample.partitioned partitioned_wf partitioned_disjoint)
    as (He & _ & _ & Hd).
  split; [exact He | exact Hd].
Defined.

(** C7 fails as stated: not every StatusResponse has disjoint key sets.
    The well-formed wire message [sample.overlapping] is unmarshalled
    without an error into a StatusResponse that lists node 1 in
    [NodesUp] and in [NodesDown]. *)
Lemma C7_disjoint_counterexample :
  let r := kms.StatusResponse.UnmarshalPB kms.StatusResponse.zero
             sample.overlapping in
  pb.StatusResponse.wf sample.overlapping ∧
  r.2 = None ∧
  ¬ (dom (kms.StatusResponse.NodesUp r.1)
     ## dom (kms.StatusResponse.NodesDown r.1)).
Proof.
  split; [split; map_Forall_concrete|]. split; [reflexivity|].
  intros Hdisj. apply (Hdisj 1); apply elem_of_dom; vm_compute; eauto.
Qed.

(** ** NodeStatusResponse: the numeric conversions *)

Lemma AsDuration_faithful (x : option durationpb.Duration) :
  durationpb.wf x = true → faithfulDuration x (durationpb.AsDuration x).
Proof.
  intros Hwf. unfold faithfulDuration, exactNanos.
  destruct x as [[secs nanos]|].
  - unfold durationpb.wf in Hwf. cbn in Hwf.
    apply andb_prop in Hwf as [Hs Hn].
    destruct (AsDuration_wire secs nanos Hs Hn) as (Hr & Hneg & Hpos & Hex).
    cbn [durationpb.GetSeconds durationpb.GetNanos
         durationpb.Seconds durationpb.Nanos].
    set (r := durationpb.AsDuration _) in *.
    assert (Hin : ∀ z, Go.is_int64 z = true → Go.MinInt64 <= z <= Go.MaxInt64).
    { intros z Hz. unfold Go.is_int64 in Hz. bool_to_Z. lia. }
    split; [unfold Go.is_int64; by_leb|].
    split; [exact Hneg|]. split; [|split; [exact Hpos|]].
    + intros H0. rewrite <- H0. apply Hex; [|rewrite H0; unfold_go; lia].
      apply Hin in Hs. unfold Go.is_int32 in Hn. bool_to_Z.
      unfold_go. unfold durationpb.Second in *.
      change (2 ^ 31) with 2147483648 in *. lia.
    + exact (AsDuration_exact_or_saturated secs nanos Hs Hn).
  - cbn. repeat split; try reflexivity; lia.
Qed.

Lemma rekey_uint32_dom {A : Type} (m : gmap Z A) :
  dom (kms.rekey Go.uint32 m) = set_map (λ id, id mod 2 ^ 32) (dom m).
Proof. apply rekey_dom. Qed.

(** C5 (amended).  The narrowing conversions of MarshalPB (node ID,
    Nodes keys, CPU counts) are not checked: MarshalPB returns nil and
    stores the value modulo 2^32, which is the value itself exactly when
    the value is one a [uint32] holds.  The conversions of UnmarshalPB
    preserve every value a peer can send: node ID, Nodes keys and CPU
    counts are unchanged, LeaderID is unchanged (a negative one stays
    negative), and each duration has the sign of its nanosecond count
    seconds * 10^9 + nanos: it is that count when seconds * 10^9 and
    the count both fit 64 bits, and otherwise the least duration for
    negative seconds and the greatest one for positive seconds. *)
Theorem C5_numeric_conversions
  (s s0 : kms.NodeStatusResponse.t) (v0 v : pb.NodeStatusResponse.t) :
  let w := kms.NodeStatusResponse.MarshalPB s v0 in
  let y := kms.NodeStatusResponse.UnmarshalPB s0 v in
  (w.2 = None ∧
   pb.NodeStatusResponse.ID w.1 = kms.NodeStatusResponse.ID s mod 2 ^ 32 ∧
   pb.NodeStatusResponse.CPUs w.1 = kms.NodeStatusResponse.CPUs s mod 2 ^ 32 ∧
   pb.NodeStatusResponse.UsableCPUs w.1
   = kms.NodeStatusResponse.UsableCPUs s mod 2 ^ 32 ∧
   dom (pb.NodeStatusResponse.Nodes w.1)
   = set_map (λ id, id mod 2 ^ 32) (dom (kms.NodeStatusResponse.Nodes s)))
  ∧
  ((pb.NodeStatusResponse.ID w.1 = kms.NodeStatusResponse.ID s
    ↔ Go.is_uint32 (kms.NodeStatusResponse.ID s) = true) ∧
   (pb.NodeStatusResponse.CPUs w.1 = kms.NodeStatusResponse.CPUs s
    ↔ Go.is_uint32 (kms.NodeStatusResponse.CPUs s) = true) ∧
   (pb.NodeStatusResponse.UsableCPUs w.1 = kms.NodeStatusResponse.UsableCPUs s
    ↔ Go.is_uint32 (kms.NodeStatusResponse.UsableCPUs s) = true) ∧
   (map_Forall (λ id _, Go.is_uint32 id = true) (kms.NodeStatusResponse.Nodes s)
    → pb.NodeStatusResponse.Nodes w.1 = kms.NodeStatusResponse.Nodes s) ∧
   (Go.is_int (kms.NodeStatusResponse.LeaderID s) = true
    → pb.NodeStatusResponse.LeaderID w.1 = kms.NodeStatusResponse.LeaderID s))
  ∧
  (pb.NodeStatusResponse.wf v →
   y.2 = None ∧
   kms.NodeStatusResponse.ID y.1 = pb.NodeStatusResponse.ID v ∧
   kms.NodeStatusResponse.Nodes y.1 = pb.NodeStatusResponse.Nodes v ∧
   kms.NodeStatusResponse.CPUs y.1 = pb.NodeStatusResponse.CPUs v ∧
   kms.NodeStatusResponse.UsableCPUs y.1 = pb.NodeStatusResponse.UsableCPUs v ∧
   kms.NodeStatusResponse.LeaderID y.1 = pb.NodeStatusResponse.LeaderID v ∧
   faithfulDuration (pb.NodeStatusResponse.LastHeartbeat v)
     (kms.NodeStatusResponse.LastHeartbeat y.1) ∧
   faithfulDuration (pb.NodeStatusResponse.HeartbeatInterval v)
     (kms.NodeStatusResponse.HeartbeatInterval y.1) ∧
   faithfulDuration (pb.NodeStatusResponse.ElectionTimeout v)
     (kms.NodeStatusResponse.ElectionTimeout y.1)).
Proof.
  cbn. split; [|split].
  - repeat split. apply rekey_uint32_dom.
  - repeat split; try apply uint32_small; try apply uint32_fixed.
    + intros HN. apply rekey_fixed. intros k a Hk. apply uint32_small.
      exact (HN k a Hk).
    + intros HL. apply int64_small. unfold_go. bool_to_Z.
      change (2 ^ (64 - 1)) with (2 ^ 63) in *. by_leb.
  - intros (_ & HN & HID & HL & _ & Hh & Hi & He & HC & HU & _).
    split; [done|].
    split; [by apply int_of_uint32|].
    split.
    { apply rekey_fixed. intros k a Hk. apply int_of_uint32.
      exact (HN k a Hk). }
    split; [by apply uint_of_uint32|].
    split; [by apply uint_of_uint32|].
    split.
    { apply int_small. unfold_go. bool_to_Z.
      change (2 ^ (64 - 1)) with (2 ^ 63) in *.
      apply andb_true_intro; split; [apply Z.leb_le | apply Z.ltb_lt]; lia. }
    repeat split; by apply AsDuration_faithful.
Qed.

Lemma orphanWire_wf : pb.NodeStatusResponse.wf sample.orphanWire.
Proof. repeat split; try reflexivity. map_Forall_concrete. Qed.

(** What a leaderless peer sent, unmarshalled: the leader ID is still
    [-1] and the last heartbeat is still negative. *)
Lemma C5_conversions_witness :
  let y := kms.NodeStatusResponse.UnmarshalPB kms.NodeStatusResponse.zero
             sample.orphanWire in
  pb.NodeStatusResponse.wf sample.orphanWire ∧
  kms.NodeStatusResponse.LeaderID y.1 = -1 ∧
  kms.NodeStatusResponse.LastHeartbeat y.1 < 0.
Proof.
  pose proof (proj2 (proj2
    (C5_numeric_conversions sample.leader kms.NodeStatusResponse.zero
       pb.NodeStatusResponse.zero sample.orphanWire)) orphanWire_wf)
    as (_ & _ & _ & _ & _ & HL & (_ & Hneg & _) & _).
  split; [exact orphanWire_wf|]. split; [exact HL|].
  apply Hneg. reflexivity.
Defined.

(** C5 fails as stated: the narrowing of the node ID is not checked.
    MarshalPB of [sample.wideID], whose ID is 2^32 + 1, returns nil and
    a wire message whose ID is 1. *)
Lemma C5_narrowing_counterexample :
  let w := kms.NodeStatusResponse.MarshalPB sample.wideID
             pb.NodeStatusResponse.zero in
  kms.NodeStatusResponse.ID sample.wideID = 4294967297 ∧
  w.2 = None ∧
  pb.NodeStatusResponse.ID w.1 = 1 ∧
  pb.NodeStatusResponse.ID w.1 ≠ kms.NodeStatusResponse.ID sample.wideID.
Proof. repeat split. discriminate. Qed.

(** ** The conversions return nil, or panic on a nil pointer *)

Lemma method_returnsNilOrPanics {S V R : Type}
  (body : S → V → R * option error) (s : option S) (v : option V) :
  (∀ s v, (body s v).2 = None) →
  ptr.returnsNilOrPanics (ptr.method body s v) (is_Some s ∧ is_Some v).
Proof.
  intros Hnil. destruct s as [s|], v as [v|]; cbn.
  - split; [apply Hnil | eauto].
  - intros [_ [? ?]]. discriminate.
  - intros [[? ?] _]. discriminate.
  - intros [[? ?] _]. discriminate.
Qed.

Lemma ptr_marshalUp_fold (m : gmap Z (option kms.NodeStatusResponse.t)) :
  ptr.returnsNilOrPanics
    (map_fold ptr.StatusResponse.marshalUp (ptr.Returned ∅ None) m)
    (map_Forall (λ _ x, is_Some x) m).
Proof.
  apply (map_fold_weak_ind
           (λ st m, ptr.returnsNilOrPanics st
                      (map_Forall (λ _ x, is_Some x) m))).
  - split; [done | apply map_Forall_empty].
  - intros i x m' st Hi IH.
    destruct st as [out e|]; cbn in IH.
    + destruct IH as [-> Hall]. destruct x as [a|]; cbn.
      * split; [done|]. apply map_Forall_insert; [done|]. eauto.
      * intros Hins. apply map_Forall_insert in Hins as [[? ?] _]; [|done].
        discriminate.
    + cbn. intros Hins. apply map_Forall_insert in Hins as [_ ?]; [|done].
      by apply IH.
Qed.

Lemma ptr_unmarshalUp_fold (m : gmap Z (option pb.NodeStatusResponse.t)) :
  ptr.returnsNilOrPanics
    (map_fold ptr.StatusResponse.unmarshalUp (ptr.Returned ∅ None) m)
    (map_Forall (λ _ x, is_Some x) m).
Proof.
  apply (map_fold_weak_ind
           (λ st m, ptr.returnsNilOrPanics st
                      (map_Forall (λ _ x, is_Some x) m))).
  - split; [done | apply map_Forall_empty].
  - intros i x m' st Hi IH.
    destruct st as [out e|]; cbn in IH.
    + destruct IH as [-> Hall]. destruct x as [a|]; cbn.
      * split; [done|]. apply map_Forall_insert; [done|]. eauto.
      * intros Hins. apply map_Forall_insert in Hins as [[? ?] _]; [|done].
        discriminate.
    + cbn. intros Hins. apply map_Forall_insert in Hins as [_ ?]; [|done].
      by apply IH.
Qed.

(** On allocated nodes the loops on pointers compute what the loops on
    values compute. *)
Lemma ptr_marshalUp_lift (m : gmap Z kms.NodeStatusResponse.t) :
  map_fold ptr.StatusResponse.marshalUp (ptr.Returned ∅ None) (Some <$> m)
  = ptr.Returned
      (Some <$> (map_fold kms.StatusResponse.marshalUp (∅, None) m).1) None.
Proof.
  rewrite map_fold_fmap.
  induction m as [|i x m Hi Hfirst IH] using map_first_key_ind.
  - rewrite !map_fold_empty. cbn. by rewrite fmap_empty.
  - rewrite !map_fold_insert_first_key by assumption.
    rewrite IH.
    destruct (marshalUp_fold m) as [He _].
    destruct (map_fold kms.StatusResponse.marshalUp _ m) as [out e].
    cbn in He. subst e. cbn. by rewrite fmap_insert.
Qed.

Lemma ptr_unmarshalUp_lift (m : gmap Z pb.NodeStatusResponse.t) :
  map_fold ptr.StatusResponse.unmarshalUp (ptr.Returned ∅ None) (Some <$> m)
  = ptr.Returned
      (Some <$> (map_fold kms.StatusResponse.unmarshalUp (∅, None) m).1) None.
Proof.
  rewrite map_fold_fmap.
  induction m as [|i x m Hi Hfirst IH] using map_first_key_ind.
  - rewrite !map_fold_empty. cbn. by rewrite fmap_empty.
  - rewrite !map_fold_insert_first_key by assumption.
    rewrite IH.
    destruct (unmarshalUp_fold m) as [He _].
    destruct (map_fold kms.StatusResponse.unmarshalUp _ m) as [out e].
    cbn in He. subst e. cbn. by rewrite fmap_insert.
Qed.

(** C10 (amended).  A MarshalPB or UnmarshalPB method of
    NodeStatusResponse, StatusResponse, EncryptResponse, DecryptResponse
    or GenerateKeyResponse never returns an error.  It returns nil when
    its receiver and its message are allocated and, for StatusResponse,
    no entry of the [NodesUp] map it reads is a nil pointer; otherwise
    it panics.  On allocated nodes the StatusResponse methods compute
    what the conversions on values compute. *)
Theorem C10_conversions_return_nil_unless_nil
  : (∀ s v, ptr.returnsNilOrPanics (ptr.NodeStatusResponse.MarshalPB s v)
              (is_Some s ∧ is_Some v)) ∧
    (∀ s v, ptr.returnsNilOrPanics (ptr.NodeStatusResponse.UnmarshalPB s v)
              (is_Some s ∧ is_Some v)) ∧
    (∀ r v, ptr.returnsNilOrPanics (ptr.EncryptResponse.MarshalPB r v)
              (is_Some r ∧ is_Some v)) ∧
    (∀ r v, ptr.returnsNilOrPanics (ptr.EncryptResponse.UnmarshalPB r v)
              (is_Some r ∧ is_Some v)) ∧
    (∀ r v, ptr.returnsNilOrPanics (ptr.DecryptResponse.MarshalPB r v)
              (is_Some r ∧ is_Some v)) ∧
    (∀ r v, ptr.returnsNilOrPanics (ptr.DecryptResponse.UnmarshalPB r v)
              (is_Some r ∧ is_Some v)) ∧
    (∀ r v, ptr.returnsNilOrPanics (ptr.GenerateKeyResponse.MarshalPB r v)
              (is_Some r ∧ is_Some v)) ∧
    (∀ r v, ptr.returnsNilOrPanics (ptr.GenerateKeyResponse.UnmarshalPB r v)
              (is_Some r ∧ is_Some v)) ∧
    (∀ s v, ptr.returnsNilOrPanics (ptr.StatusResponse.MarshalPB s v)
              (is_Some v ∧ ∃ s', s = Some s' ∧ ptr.StatusResponse.allocated s')) ∧
    (∀ s v, ptr.returnsNilOrPanics (ptr.StatusResponse.UnmarshalPB s v)
              (is_Some s ∧
               ∃ v', v = Some v' ∧ ptr.pbStatusResponse.allocated v')) ∧
    (∀ s v, ptr.StatusResponse.MarshalPB
              (Some (ptr.StatusResponse.lift s))
              (Some (ptr.pbStatusResponse.lift v))
            = ptr.Returned
                (ptr.pbStatusResponse.lift (kms.StatusResponse.MarshalPB s v).1)
                None) ∧
    (∀ s v, ptr.StatusResponse.UnmarshalPB
              (Some (ptr.StatusResponse.lift s))
              (Some (ptr.pbStatusResponse.lift v))
            = ptr.Returned
                (ptr.StatusResponse.lift (kms.StatusResponse.UnmarshalPB s v).1)
                None).
Proof.
  split_and!; try (intros; by apply method_returnsNilOrPanics).
  - intros [s|] [v|]; cbn; try (intros [[? ?] ?]; discriminate);
      try (intros [_ (? & ? & _)]; discriminate).
    pose proof (ptr_marshalUp_fold (ptr.StatusResponse.NodesUp s)) as Hf.
    destruct (map_fold _ _ _) as [up e|]; cbn in *.
    + destruct Hf as [-> Hall]. cbn. eauto 6.
    + intros (_ & s' & [= <-] & Hall). by apply Hf.
  - intros [s|] [v|]; cbn; try (intros [[? ?] ?]; discriminate);
      try (intros [_ (? & ? & _)]; discriminate).
    pose proof (ptr_unmarshalUp_fold (ptr.pbStatusResponse.NodesUp v)) as Hf.
    destruct (map_fold _ _ _) as [up e|]; cbn in *.
    + destruct Hf as [-> Hall]. cbn. eauto 6.
    + intros (_ & v' & [= <-] & Hall). by apply Hf.
  - intros s v. unfold ptr.StatusResponse.MarshalPB,
      kms.StatusResponse.MarshalPB. cbn.
    rewrite ptr_marshalUp_lift.
    destruct (marshalUp_fold (kms.StatusResponse.NodesUp s)) as [He _].
    destruct (map_fold kms.StatusResponse.marshalUp _ _) as [up e].
    cbn in He. by subst e.
  - intros s v. unfold ptr.StatusResponse.UnmarshalPB,
      kms.StatusResponse.UnmarshalPB. cbn.
    rewrite ptr_unmarshalUp_lift.
    destruct (unmarshalUp_fold (pb.StatusResponse.NodesUp v)) as [He _].
    destruct (map_fold kms.StatusResponse.unmarshalUp _ _) as [up e].
    cbn in He. by subst e.
Qed.

(** C10 fails as stated: the conversions are not total.
    StatusResponse.MarshalPB on [sample.nilNode], whose entry for node 1
    is a nil pointer, panics in [resp.MarshalPB(stat)];
    StatusResponse.UnmarshalPB on a message with a nil node panics in
    [stat.UnmarshalPB(resp)]; and EncryptResponse.UnmarshalPB on a nil
    receiver panics at its first assignment. *)
Lemma C10_nil_pointer_counterexample :
  ptr.StatusResponse.MarshalPB (Some sample.nilNode)
    (Some (ptr.pbStatusResponse.mk ∅ ∅)) = ptr.Panics ∧
  ptr.StatusResponse.UnmarshalPB (Some (ptr.StatusResponse.mk ∅ ∅))
    (Some (ptr.pbStatusResponse.mk (<[1 := None]> ∅) ∅)) = ptr.Panics ∧
  ptr.EncryptResponse.UnmarshalPB None (Some pb.EncryptResponse.zero)
  = ptr.Panics.
Proof. split_and!; reflexivity. Qed.

(** ** readResponse *)

Lemma ReadFull_exact (enc trail : list byte) :
  io.ReadFull (enc ++ trail) (length enc) = (enc, trail, None).
Proof.
  unfold io.ReadFull. destruct enc as [|b enc]; [reflexivity|].
  cbn [length app].
  replace (S (length (enc ++ trail)) <? S (length enc))%nat with false.
  2:{ symmetry. apply Nat.ltb_ge. rewrite length_app. lia. }
  change (b :: enc ++ trail) with ((b :: enc) ++ trail).
  change (S (length enc)) with (length (b :: enc)).
  by rewrite take_app_length, drop_app_length.
Qed.

Section readResponse_properties.
Variables ContentType ContentTypeBinary : string.
Context {M T : Type} `{kms.Message M} `{kms.Unmarshaler T M}.

(** A response whose length is that of its payload is read in full and
    decoded by the codec that the content type selects. *)
Lemma readResponse_decoded (h : gmap string (list string))
  (enc trail : list byte) (v : T) (m : M) :
  (if String.eqb (http.Get h ContentType) ContentTypeBinary
   then kms.proto_Unmarshal enc else kms.protojson_Unmarshal enc) = inl m →
  let o := kms.readResponse ContentType ContentTypeBinary
             (http.mkResponse (Z.of_nat (length enc)) h (enc ++ trail)) v in
  (kms.value o, kms.err o) = kms.UnmarshalPB v m ∧ kms.rest o = trail.
Proof.
  intros Hdec. unfold kms.readResponse. cbn [http.ContentLength http.Body http.Header].
  destruct (Z.ltb_spec (Z.of_nat (length enc)) 0) as [Hneg|_]; [lia|].
  rewrite Nat2Z.id, ReadFull_exact.
  destruct (String.eqb _ _); rewrite Hdec;
    destruct (kms.UnmarshalPB v m) as [v' e]; done.
Qed.
End readResponse_properties.

(** C6.  For every message [m], every target [v] and codecs that decode
    what they encode: readResponse on the binary encoding of [m] under
    the binary content type and readResponse on the textual encoding of
    [m] under any other content type leave the same value in [v] and
    return the same error, namely those of [v.UnmarshalPB(m)]. *)
Theorem C6_encoding_transparent
  (ContentType ContentTypeBinary : string) {M T : Type}
  `{kms.Message M} `{!kms.MessageLaws M} `{kms.Unmarshaler T M}
  (m : M) (v : T) (hB hJ : gmap string (list string)) :
  http.Get hB ContentType = ContentTypeBinary →
  http.Get hJ ContentType ≠ ContentTypeBinary →
  let bin := kms.proto_Marshal m in
  let txt := kms.protojson_Marshal m in
  let oB := kms.readResponse ContentType ContentTypeBinary
              (http.mkResponse (Z.of_nat (length bin)) hB bin) v in
  let oJ := kms.readResponse ContentType ContentTypeBinary
              (http.mkResponse (Z.of_nat (length txt)) hJ txt) v in
  kms.value oB = kms.value oJ ∧
  kms.err oB = kms.err oJ ∧
  (kms.value oB, kms.err oB) = kms.UnmarshalPB v m.
Proof.
  intros HB HJ bin txt oB oJ.
  assert (EB : (kms.value oB, kms.err oB) = kms.UnmarshalPB v m).
  { pose proof (readResponse_decoded ContentType ContentTypeBinary
                  hB bin [] v m) as Hd.
    rewrite app_nil_r in Hd. apply Hd.
    rewrite HB, String.eqb_refl. apply kms.proto_roundtrip. }
  assert (EJ : (kms.value oJ, kms.err oJ) = kms.UnmarshalPB v m).
  { pose proof (readResponse_decoded ContentType ContentTypeBinary
                  hJ txt [] v m) as Hd.
    rewrite app_nil_r in Hd. apply Hd.
    apply String.eqb_neq in HJ. rewrite HJ.
    apply kms.protojson_roundtrip. }
  rewrite <- EJ in EB. inversion EB. rewrite <- EJ. done.
Qed.

Lemma codec_laws : @kms.MessageLaws pb.DecryptResponse.t sample.codec.
Proof. split; intros [p]; reflexivity. Qed.

(** The message [sample.hello] read from its binary and from its
    textual encoding. *)
Lemma C6_transparent_witness :
  http.Get sample.binaryHeader sample.ContentType = sample.binaryType ∧
  http.Get sample.jsonHeader sample.ContentType ≠ sample.binaryType ∧
  kms.value
    (@kms.readResponse sample.ContentType sample.binaryType _ _
       sample.codec kms.DecryptResponse_Unmarshaler
       (http.mkResponse 6 sample.binaryHeader
          [x0a; x68; x65; x6c; x6c; x6f])
       kms.DecryptResponse.zero)
  = kms.value
      (@kms.readResponse sample.ContentType sample.binaryType _ _
         sample.codec kms.DecryptResponse_Unmarshaler
         (http.mkResponse 6 sample.jsonHeader
            [x7b; x68; x65; x6c; x6c; x6f])
         kms.DecryptResponse.zero).
Proof.
  assert (HB : http.Get sample.binaryHeader sample.ContentType
               = sample.binaryType) by reflexivity.
  assert (HJ : http.Get sample.jsonHeader sample.ContentType
               ≠ sample.binaryType) by discriminate.
  split; [exact HB|]. split; [exact HJ|].
  exact (proj1
    (@C6_encoding_transparent sample.ContentType sample.binaryType _ _
       sample.codec codec_laws kms.DecryptResponse_Unmarshaler
       sample.hello kms.DecryptResponse.zero
       sample.binaryHeader sample.jsonHeader HB HJ)).
Defined.

(** C8.  readResponse on a response whose content length is negative
    returns the error of kind 411 (Length Required) at once: nothing is
    read from the body, no decoder and no UnmarshalPB is called and [v]
    is untouched.  When the body was read and the selected decoder
    fails, readResponse returns the decoder's error after that single
    decoding call: the decoder is not called again, UnmarshalPB is not
    called and [v] is untouched. *)
Theorem C8_malformed_input_reported
  (ContentType ContentTypeBinary : string) {M T : Type}
  `{kms.Message M} `{kms.Unmarshaler T M} (r : http.Response) (v : T) :
  (http.ContentLength r < 0 →
   kms.readResponse ContentType ContentTypeBinary r v
   = kms.mkOutcome v
       (Some (Error 411 "request content length is negative"))
       (http.Body r) [])
  ∧
  (∀ buf rest e,
     0 <= http.ContentLength r →
     io.ReadFull (http.Body r) (Z.to_nat (http.ContentLength r))
     = (buf, rest, None) →
     (if String.eqb (http.Get (http.Header r) ContentType) ContentTypeBinary
      then kms.proto_Unmarshal buf else kms.protojson_Unmarshal buf)
     = inr e →
     kms.readResponse ContentType ContentTypeBinary r v
     = kms.mkOutcome v (Some e) rest
         [kms.EvReadFull (Z.to_nat (http.ContentLength r));
          if String.eqb (http.Get (http.Header r) ContentType)
               ContentTypeBinary
          then kms.EvProtoUnmarshal buf else kms.EvProtoJSONUnmarshal buf]).
Proof.
  split.
  - intros Hneg. unfold kms.readResponse.
    apply Z.ltb_lt in Hneg. by rewrite Hneg.
  - intros buf rest e Hlen Hread Hdec. unfold kms.readResponse.
    apply Z.ltb_ge in Hlen. rewrite Hlen, Hread.
    destruct (String.eqb _ _); by rewrite Hdec.
Qed.

(** [sample.noLength] and [sample.garbled] read into a
    DecryptResponse. *)
Lemma C8_reported_witness :
  (http.ContentLength sample.noLength < 0 ∧
   @kms.readResponse sample.ContentType sample.binaryType _ _
     sample.codec kms.DecryptResponse_Unmarshaler
     sample.noLength kms.DecryptResponse.zero
   = kms.mkOutcome kms.DecryptResponse.zero
       (Some (Error 411 "request content length is negative"))
       [x0a; x68; x65; x6c; x6c; x6f] [])
  ∧
  (0 <= http.ContentLength sample.garbled ∧
   @kms.readResponse sample.ContentType sample.binaryType _ _
     sample.codec kms.DecryptResponse_Unmarshaler
     sample.garbled kms.DecryptResponse.zero
   = kms.mkOutcome kms.DecryptResponse.zero
       (Some (ErrProto "cannot parse invalid wire-format data"))
       [x00]
       [kms.EvReadFull 3; kms.EvProtoUnmarshal [xff; xff; xff]]).
Proof.
  split.
  - assert (Hneg : http.ContentLength sample.noLength < 0) by reflexivity.
    split; [exact Hneg|].
    exact (proj1
      (@C8_malformed_input_reported sample.ContentType sample.binaryType
         _ _ sample.codec kms.DecryptResponse_Unmarshaler
         sample.noLength kms.DecryptResponse.zero) Hneg).
  - assert (Hlen : 0 <= http.ContentLength sample.garbled) by discriminate.
    split; [exact Hlen|].
    exact (proj2
      (@C8_malformed_input_reported sample.ContentType sample.binaryType
         _ _ sample.codec kms.DecryptResponse_Unmarshaler
         sample.garbled kms.DecryptResponse.zero)
      [xff; xff; xff] [x00]
      (ErrProto "cannot parse invalid wire-format data")
      Hlen eq_refl eq_refl).
Defined.

(** ** The labels of the textual encoding *)

Lemma jsonMembers_labels (fields : list (pb.StructTag * pb.Value))
  (l : string) (v : pb.Value) :
  In (l, v) (pb.jsonMembers fields) →
  ∃ t, In (t, v) fields ∧ l = pb.json t ∧ pb.populated v = true.
Proof.
  unfold pb.jsonMembers. intros Hin.
  apply in_map_iff in Hin as ([t v'] & Heq & Hin). cbn in Heq.
  injection Heq as <- <-.
  apply filter_In in Hin as [Hin Hpop]. eauto.
Qed.

Lemma jsonMembers_populated (fields : list (pb.StructTag * pb.Value))
  (t : pb.StructTag) (v : pb.Value) :
  In (t, v) fields → pb.populated v = true →
  In (pb.json t, v) (pb.jsonMembers fields).
Proof.
  intros Hin Hpop. unfold pb.jsonMembers.
  apply in_map_iff. exists (t, v). split; [reflexivity|].
  apply filter_In. split; assumption.
Qed.

Lemma populated_bytes (b : list byte) :
  b ≠ [] → pb.populated (pb.VBytes b) = true.
Proof. destruct b; [congruence | reflexivity]. Qed.

(** C9.  The labels of the textual encoding are lower-case snake-case
    names fixed by the message declarations, not the in-memory field
    names.  Every [json_name] of the two [.proto] files and every
    [json=] name of the generated request types is lower-case snake
    case; the declared label of [RemoveIDs] is "remove" and that of
    [AssociatedData] is "associated_data", in the [.proto] file and in
    the generated tags alike; an EditClusterRequest with IDs to remove
    is written as the one member "remove", and an Encrypt, Decrypt or
    GenerateKey request with associated data has it under
    "associated_data" and has no member named after a Go field. *)
Theorem C9_json_labels :
  (forallb pb.isSnakeCase (pb.allLabels pb.request_proto) = true ∧
   forallb pb.isSnakeCase (pb.allLabels pb.response_proto) = true ∧
   forallb (λ t, pb.isSnakeCase (pb.json t)) pb.file_request_proto_tags
   = true)
  ∧
  (pb.json pb.EditClusterRequest_RemoveIDs = "remove"%string ∧
   pb.json pb.EncryptRequest_AssociatedData = "associated_data"%string ∧
   pb.json pb.DecryptRequest_AssociatedData = "associated_data"%string ∧
   pb.json pb.GenerateKeyRequest_AssociatedData = "associated_data"%string ∧
   pb.jsonNameOf pb.request_proto "EditClusterRequest" "RemoveIDs"
   = Some "remove"%string ∧
   pb.jsonNameOf pb.request_proto "EncryptRequest" "AssociatedData"
   = Some "associated_data"%string ∧
   pb.jsonNameOf pb.request_proto "DecryptRequest" "AssociatedData"
   = Some "associated_data"%string ∧
   pb.jsonNameOf pb.request_proto "GenerateKeyRequest" "AssociatedData"
   = Some "associated_data"%string)
  ∧
  (∀ x : pb.EditClusterRequest.t,
     (pb.EditClusterRequest.RemoveIDs x ≠ [] →
      pb.jsonMembers (pb.EditClusterRequest_fields x)
      = [("remove"%string,
          pb.VRepeatedUint32 (pb.EditClusterRequest.RemoveIDs x))]) ∧
     (∀ l v, In (l, v) (pb.jsonMembers (pb.EditClusterRequest_fields x)) →
             l = "remove"%string))
  ∧
  (∀ x : pb.EncryptRequest.t,
     (pb.EncryptRequest.AssociatedData x ≠ [] →
      In ("associated_data"%string,
          pb.VBytes (pb.EncryptRequest.AssociatedData x))
         (pb.jsonMembers (pb.EncryptRequest_fields x))) ∧
     (∀ l v, In (l, v) (pb.jsonMembers (pb.EncryptRequest_fields x)) →
             In l ["version"; "plaintext"; "associated_data"]%string))
  ∧
  (∀ x : pb.DecryptRequest.t,
     (pb.DecryptRequest.AssociatedData x ≠ [] →
      In ("associated_data"%string,
          pb.VBytes (pb.DecryptRequest.AssociatedData x))
         (pb.jsonMembers (pb.DecryptRequest_fields x))) ∧
     (∀ l v, In (l, v) (pb.jsonMembers (pb.DecryptRequest_fields x)) →
             In l ["version"; "ciphertext"; "associated_data"]%string))
  ∧
  (∀ x : pb.GenerateKeyRequest.t,
     (pb.GenerateKeyRequest.AssociatedData x ≠ [] →
      In ("associated_data"%string,
          pb.VBytes (pb.GenerateKeyRequest.AssociatedData x))
         (pb.jsonMembers (pb.GenerateKeyRequest_fields x))) ∧
     (∀ l v, In (l, v) (pb.jsonMembers (pb.GenerateKeyRequest_fields x)) →
             In l ["version"; "associated_data"; "length"]%string)).
Proof.
  split; [repeat split; vm_compute; reflexivity|].
  split; [repeat split|].
  split.
  { intros x. split.
    - destruct x as [ids]. intros Hne. cbn in *.
      destruct ids; [congruence | reflexivity].
    - intros l v Hin.
      apply jsonMembers_labels in Hin as (t & Hin & -> & _).
      cbn in Hin. destruct Hin as [E|[]]. by injection E as <- _. }
  split; [|split]; intros x; split.
  - intros Hne.
    apply (jsonMembers_populated _ pb.EncryptRequest_AssociatedData);
      [cbn; tauto | by apply populated_bytes].
  - intros l v Hin.
    apply jsonMembers_labels in Hin as (t & Hin & -> & _).
    cbn in Hin. destruct Hin as [E|[E|[E|[]]]];
      injection E as <- _; cbn; tauto.
  - intros Hne.
    apply (jsonMembers_populated _ pb.DecryptRequest_AssociatedData);
      [cbn; tauto | by apply populated_bytes].
  - intros l v Hin.
    apply jsonMembers_labels in Hin as (t & Hin & -> & _).
    cbn in Hin. destruct Hin as [E|[E|[E|[]]]];
      injection E as <- _; cbn; tauto.
  - intros Hne.
    apply (jsonMembers_populated _ pb.GenerateKeyRequest_AssociatedData);
      [cbn; tauto | by apply populated_bytes].
  - intros l v Hin.
    apply jsonMembers_labels in Hin as (t & Hin & -> & _).
    cbn in Hin. destruct Hin as [E|[E|[E|[]]]];
      injection E as <- _; cbn; tauto.
Qed.

(** An EditClusterRequest and an EncryptRequest in the textual
    encoding. *)
Lemma C9_labels_witness :
  pb.jsonMembers (pb.EditClusterRequest_fields sample.removeTwo)
  = [("remove"%string, pb.VRepeatedUint32 [3; 7])] ∧
  In ("associated_data"%string, pb.VBytes [x63; x74; x78])
     (pb.jsonMembers (pb.EncryptRequest_fields sample.encryptHello)).
Proof.
  destruct C9_json_labels as (_ & _ & Hedit & Henc & _).
  split.
  - apply (proj1 (Hedit sample.removeTwo)). discriminate.
  - apply (proj1 (Henc sample.encryptHello)). discriminate.
Defined.

(** ** GenerateKey and Decrypt on the server *)

Lemma draw_length (n : nat) (e : server.Entropy) :
  length (server.draw n e).1 = n ∧
  server.used (server.draw n e).2 = (server.used e + n)%nat.
Proof. unfold server.draw. cbn. by rewrite length_map, length_seq. Qed.

Section server_properties.
Variable seal : list byte → list byte → list byte → list byte.
Variable open : list byte → list byte → list byte → option (list byte).

(** A request that passes the length check and names an existing key is
    answered with as many fresh bytes as the effective length. *)
Lemma GenerateKey_accepts (ring : list server.KeyVersion)
  (rng : server.Entropy) (req : option pb.GenerateKeyRequest.t)
  (key : server.KeyVersion) :
  pb.GenerateKeyRequest.GetLength req <= server.MaxLength →
  server.resolve ring (pb.GenerateKeyRequest.GetVersion req) = Some key →
  ∃ resp rng',
    server.GenerateKey seal ring rng req = (inl resp, rng') ∧
    pb.GenerateKeyResponse.Version resp = server.version key ∧
    length (pb.GenerateKeyResponse.Plaintext resp)
    = Z.to_nat (if pb.GenerateKeyRequest.GetLength req =? 0
                then server.DefaultLength
                else pb.GenerateKeyRequest.GetLength req) ∧
    server.used rng'
    = (server.used rng + length (pb.GenerateKeyResponse.Plaintext resp))%nat.
Proof.
  intros Hmax Hkey. unfold server.GenerateKey.
  destruct (Z.ltb_spec server.MaxLength (pb.GenerateKeyRequest.GetLength req))
    as [Hgt|_]; [lia|].
  rewrite Hkey.
  set (n := Z.to_nat _).
  destruct (draw_length n rng) as [Hlen Hused].
  destruct (server.draw n rng) as [plaintext rng']. cbn in Hlen, Hused.
  eexists _, _. split; [reflexivity|]. cbn. rewrite Hlen. done.
Qed.
End server_properties.

(** C3.  For a GenerateKey request on an existing key: with a length L,
    0 < L ≤ 1024, the returned plaintext key has exactly L bytes; with
    the length omitted it has exactly 32 bytes; with the length 0 the
    request is answered as the request without a length is, with 32
    bytes.  A request with L > 1024 is rejected whatever the key ring
    holds, and no byte of key material has been drawn. *)
Theorem C3_GenerateKey_length
  (seal : list byte → list byte → list byte → list byte)
  (ring : list server.KeyVersion) (rng : server.Entropy)
  (v : Z) (ad : list byte) (key : server.KeyVersion) :
  let req l := Some (pb.GenerateKeyRequest.mk v ad l) in
  (∀ L, 0 < L <= 1024 → server.resolve ring v = Some key →
     ∃ resp rng',
       server.GenerateKey seal ring rng (req (Some L)) = (inl resp, rng') ∧
       Z.of_nat (length (pb.GenerateKeyResponse.Plaintext resp)) = L)
  ∧
  (server.resolve ring v = Some key →
     ∃ resp rng',
       server.GenerateKey seal ring rng (req None) = (inl resp, rng') ∧
       length (pb.GenerateKeyResponse.Plaintext resp) = 32%nat ∧
       server.GenerateKey seal ring rng (req (Some 0)) = (inl resp, rng'))
  ∧
  (∀ L, 1024 < L →
     server.GenerateKey seal ring rng (req (Some L))
     = (inr (server.Malformed "length out of range"), rng)).
Proof.
  intros req. split; [|split].
  - intros L HL Hkey.
    destruct (GenerateKey_accepts seal ring rng (req (Some L)) key)
      as (resp & rng' & Hgen & _ & Hlen & _).
    { cbn. unfold server.MaxLength. lia. }
    { exact Hkey. }
    exists resp, rng'. split; [exact Hgen|].
    rewrite Hlen. cbn.
    destruct (Z.eqb_spec L 0); lia.
  - intros Hkey.
    destruct (GenerateKey_accepts seal ring rng (req None) key)
      as (resp & rng' & Hgen & _ & Hlen & _).
    { cbn. unfold server.MaxLength. lia. }
    { exact Hkey. }
    exists resp, rng'. split; [exact Hgen|]. split; [exact Hlen|].
    exact Hgen.
  - intros L HL. unfold server.GenerateKey. cbn.
    destruct (Z.ltb_spec server.MaxLength L) as [_|Hle];
      [reflexivity | unfold server.MaxLength in Hle; lia].
Qed.

(** A data key of 16 bytes, one of the default length and a request for
    2048 bytes on [sample.ring]. *)
Lemma C3_length_witness :
  (∃ resp rng',
     server.GenerateKey sample.seal sample.ring sample.entropy
       (Some (sample.wantKey (Some 16))) = (inl resp, rng') ∧
     Z.of_nat (length (pb.GenerateKeyResponse.Plaintext resp)) = 16) ∧
  (∃ resp rng',
     server.GenerateKey sample.seal sample.ring sample.entropy
       (Some (sample.wantKey None)) = (inl resp, rng') ∧
     length (pb.GenerateKeyResponse.Plaintext resp) = 32%nat ∧
     server.GenerateKey sample.seal sample.ring sample.entropy
       (Some (sample.wantKey (Some 0))) = (inl resp, rng')) ∧
  server.GenerateKey sample.seal sample.ring sample.entropy
    (Some (sample.wantKey (Some 2048)))
  = (inr (server.Malformed "length out of range"), sample.entropy).
Proof.
  pose proof (C3_GenerateKey_length sample.seal sample.ring sample.entropy
                0 [x63; x74; x78] (server.mkKeyVersion 3 [x03]))
    as (Hlen & Hdefault & Hreject).
  split; [|split].
  - apply (Hlen 16); [lia | reflexivity].
  - apply Hdefault. reflexivity.
  - apply (Hreject 2048). lia.
Defined.

(** C4.  Decrypt on a request whose version is 0 fails, whatever the key
    ring holds: version 0 is never resolved to the latest key version,
    not even when the latest key version would decrypt the ciphertext. *)
Theorem C4_Decrypt_rejects_version_zero
  (open : list byte → list byte → list byte → option (list byte))
  (ring : list server.KeyVersion) (req : option pb.DecryptRequest.t) :
  pb.DecryptRequest.GetVersion req = 0 →
  server.Decrypt open ring req
  = inr (server.Malformed "version must not be zero") ∧
  (∀ key plaintext,
     server.resolve ring 0 = Some key →
     open (server.material key) (pb.DecryptRequest.GetAssociatedData req)
          (pb.DecryptRequest.GetCiphertext req) = Some plaintext →
     server.Decrypt open ring req
     ≠ inl (pb.DecryptResponse.mk plaintext)).
Proof.
  intros Hv.
  assert (E : server.Decrypt open ring req
              = inr (server.Malformed "version must not be zero")).
  { unfold server.Decrypt. by rewrite Hv. }
  split; [exact E|]. intros key plaintext _ _. rewrite E. discriminate.
Qed.

(** [sample.decryptLatest] asks for version 0 with a ciphertext that the
    latest key of [sample.ring] decrypts, and is rejected. *)
Lemma C4_version_zero_witness :
  pb.DecryptRequest.GetVersion (Some sample.decryptLatest) = 0 ∧
  server.resolve sample.ring 0 = Some (server.mkKeyVersion 3 [x03]) ∧
  sample.open [x03] [x63; x74; x78] [x03; x63; x74; x78; x68; x69]
  = Some [x68; x69] ∧
  server.Decrypt sample.open sample.ring (Some sample.decryptLatest)
  = inr (server.Malformed "version must not be zero").
Proof.
  split; [reflexivity|]. split; [reflexivity|]. split; [reflexivity|].
  exact (proj1 (C4_Decrypt_rejects_version_zero sample.open sample.ring
                  (Some sample.decryptLatest) eq_refl)).
Defined.

(** ** readResponse: reading the body *)

Lemma ReadFull_enough (body : list byte) (n : nat) :
  (n ≤ length body)%nat →
  io.ReadFull body n = (take n body, drop n body, None).
Proof.
  intros Hn. unfold io.ReadFull. destruct n as [|n]; [by rewrite drop_0|].
  destruct body as [|b body]; [cbn in Hn; lia|].
  replace (length (b :: body) <? S n)%nat with false; [reflexivity|].
  symmetry. apply Nat.ltb_ge. lia.
Qed.

Lemma ReadFull_too_short (body : list byte) (n : nat) :
  (length body < n)%nat →
  ∃ buf, io.ReadFull body n
         = (buf, [], Some (match body with
                           | [] => EOF
                           | _ => ErrUnexpectedEOF
                           end)).
Proof.
  intros Hn. unfold io.ReadFull. destruct n as [|n]; [lia|].
  destruct body as [|b body]; [eauto|].
  replace (length (b :: body) <? S n)%nat with true; [eauto|].
  symmetry. apply Nat.ltb_lt. lia.
Qed.

Section readResponse_reading.
Variables ContentType ContentTypeBinary : string.
Context {M T : Type} `{kms.Message M} `{kms.Unmarshaler T M}.

Lemma readResponse_read (r : http.Response) (v : T) :
  0 <= http.ContentLength r →
  (Z.to_nat (http.ContentLength r) ≤ length (http.Body r))%nat →
  let n := Z.to_nat (http.ContentLength r) in
  let buf := take n (http.Body r) in
  kms.readResponse ContentType ContentTypeBinary r v
  = match selectedDecoder ContentType ContentTypeBinary r buf with
    | inr e =>
        kms.mkOutcome v (Some e) (drop n (http.Body r))
          [kms.EvReadFull n;
           decodingEvent ContentType ContentTypeBinary r buf]
    | inl m =>
        kms.mkOutcome (kms.UnmarshalPB v m).1 (kms.UnmarshalPB v m).2
          (drop n (http.Body r))
          [kms.EvReadFull n;
           decodingEvent ContentType ContentTypeBinary r buf;
           kms.EvUnmarshalPB]
    end.
Proof.
  intros Hlen Hbody n buf. subst n buf.
  unfold kms.readResponse, selectedDecoder, decodingEvent, selectsBinary.
  apply Z.ltb_ge in Hlen. rewrite Hlen.
  rewrite (ReadFull_enough _ _ Hbody).
  destruct (String.eqb _ _).
  - destruct (kms.proto_Unmarshal _) as [m|e]; [|reflexivity].
    by destruct (kms.UnmarshalPB v m).
  - destruct (kms.protojson_Unmarshal _) as [m|e]; [|reflexivity].
    by destruct (kms.UnmarshalPB v m).
Qed.

Lemma readResponse_short (r : http.Response) (v : T) :
  0 <= http.ContentLength r →
  (length (http.Body r) < Z.to_nat (http.ContentLength r))%nat →
  kms.readResponse ContentType ContentTypeBinary r v
  = kms.mkOutcome v
      (Some (match http.Body r with [] => EOF | _ => ErrUnexpectedEOF end))
      [] [kms.EvReadFull (Z.to_nat (http.ContentLength r))].
Proof.
  intros Hlen Hbody. unfold kms.readResponse.
  apply Z.ltb_ge in Hlen. rewrite Hlen.
  destruct (ReadFull_too_short _ _ Hbody) as [buf ->]. reflexivity.
Qed.

Lemma readResponse_negative (r : http.Response) (v : T) :
  http.ContentLength r < 0 →
  kms.readResponse ContentType ContentTypeBinary r v
  = kms.mkOutcome v
      (Some (Error 411 "request content length is negative"))
      (http.Body r) [].
Proof.
  intros Hneg. unfold kms.readResponse. apply Z.ltb_lt in Hneg.
  by rewrite Hneg.
Qed.
End readResponse_reading.

(** ** readResponse: when it succeeds and what it touches *)



(** X1.  readResponse returns nil and leaves [v'] in [v] exactly when
    the content length is not negative, the body holds at least that
    many bytes, the decoder that the content type selects accepts the
    first ContentLength bytes, and [v.UnmarshalPB] of the decoded
    message returns nil and leaves [v']. *)
Theorem readResponse_succeeds_iff
  (ContentType ContentTypeBinary : string) {M T : Type}
  `{kms.Message M} `{kms.Unmarshaler T M}
  (r : http.Response) (v v' : T) :
  let o := kms.readResponse ContentType ContentTypeBinary r v in
  let n := Z.to_nat (http.ContentLength r) in
  (kms.err o = None ∧ kms.value o = v')
  ↔
  (0 <= http.ContentLength r ∧
   (n ≤ length (http.Body r))%nat ∧
   ∃ m, selectedDecoder ContentType ContentTypeBinary r
          (take n (http.Body r)) = inl m ∧
        kms.UnmarshalPB v m = (v', None)).
Proof.
  intros o n. subst o.
  destruct (Z.lt_ge_cases (http.ContentLength r) 0) as [Hneg|Hlen].
  { rewrite readResponse_negative by exact Hneg. cbn.
    split; [intros [? _]; discriminate | intros [? _]; lia]. }
  destruct (Nat.le_gt_cases n (length (http.Body r))) as [Hbody|Hshort].
  2:{ rewrite readResponse_short by assumption. cbn.
      split; [intros [? _]; discriminate | intros (_ & ? & _); lia]. }
  rewrite readResponse_read by assumption. fold n.
  destruct (selectedDecoder _ _ _ _) as [m|e]; cbn.
  - destruct (kms.UnmarshalPB v m) as [w e] eqn:Hu. cbn. split.
    + intros [-> ->]. split; [lia|]. split; [exact Hbody|]. by exists m.
    + intros (_ & _ & m' & Hm & Hu'). injection Hm as <-.
      rewrite Hu in Hu'. by injection Hu' as -> ->.
  - split; [intros [? _]; discriminate|].
    intros (_ & _ & m' & Hm & _). discriminate.
Qed.

(** X2.  The calls of readResponse are an initial part of: one
    io.ReadFull of ContentLength bytes, one call of the selected decoder
    on the bytes read, one call of UnmarshalPB.  When UnmarshalPB was
    not called [v] is untouched, and readResponse never returns nil
    without having called it. *)
Theorem readResponse_calls_in_order
  (ContentType ContentTypeBinary : string) {M T : Type}
  `{kms.Message M} `{kms.Unmarshaler T M}
  (r : http.Response) (v : T) :
  let o := kms.readResponse ContentType ContentTypeBinary r v in
  let n := Z.to_nat (http.ContentLength r) in
  kms.trace o `prefix_of`
    [kms.EvReadFull n;
     decodingEvent ContentType ContentTypeBinary r (take n (http.Body r));
     kms.EvUnmarshalPB] ∧
  (kms.EvUnmarshalPB ∉ kms.trace o → kms.value o = v) ∧
  (kms.err o = None → kms.EvUnmarshalPB ∈ kms.trace o).
Proof.
  intros o n. subst o.
  destruct (Z.lt_ge_cases (http.ContentLength r) 0) as [Hneg|Hlen].
  { rewrite readResponse_negative by exact Hneg. cbn.
    split; [apply prefix_nil|]. split; [done | discriminate]. }
  destruct (Nat.le_gt_cases n (length (http.Body r))) as [Hbody|Hshort].
  2:{ rewrite readResponse_short by assumption. cbn.
      split; [by eexists|]. split; [done | discriminate]. }
  rewrite readResponse_read by assumption. fold n.
  destruct (selectedDecoder _ _ _ _) as [m|e]; cbn.
  - split; [done|]. split.
    + intros Hnot. exfalso. apply Hnot. set_unfold. tauto.
    + intros _. set_unfold. tauto.
  - split; [by eexists|]. split; [done | discriminate].
Qed.

(** X3.  When the buffer of ContentLength bytes can be allocated (the
    content length is at most [Go.maxAlloc]), readResponse takes at
    most ContentLength bytes from the front of the body; when it
    returns nil it took exactly that many and the bytes after them are
    still unread.  A body that ends before ContentLength bytes gives
    io.EOF when it is empty and io.ErrUnexpectedEOF otherwise, with [v]
    untouched and no decoder called. *)
Theorem readResponse_reads_ContentLength_bytes
  (ContentType ContentTypeBinary : string) {M T : Type}
  `{kms.Message M} `{kms.Unmarshaler T M}
  (r : http.Response) (v : T) :
  http.ContentLength r <= Go.maxAlloc →
  let o := kms.readResponse ContentType ContentTypeBinary r v in
  let n := Z.to_nat (http.ContentLength r) in
  (∃ consumed, http.Body r = consumed ++ kms.rest o ∧
               (length consumed ≤ n)%nat) ∧
  (kms.err o = None → kms.rest o = drop n (http.Body r)) ∧
  ((length (http.Body r) < n)%nat →
   kms.value o = v ∧ kms.rest o = [] ∧
   kms.trace o = [kms.EvReadFull n] ∧
   kms.err o = Some (match http.Body r with
                     | [] => EOF
                     | _ => ErrUnexpectedEOF
                     end)).
Proof.
  intros _ o n. subst o.
  destruct (Z.lt_ge_cases (http.ContentLength r) 0) as [Hneg|Hlen].
  { rewrite readResponse_negative by exact Hneg. cbn.
    split; [exists []; split; [done | cbn; lia]|].
    split; [discriminate | subst n; lia]. }
  destruct (Nat.le_gt_cases n (length (http.Body r))) as [Hbody|Hshort].
  2:{ rewrite readResponse_short by assumption. cbn.
      split; [exists (http.Body r); rewrite app_nil_r; split; [done | lia]|].
      split; [discriminate | done]. }
  rewrite readResponse_read by assumption. fold n.
  assert (Hc : ∃ consumed,
             http.Body r = consumed ++ drop n (http.Body r) ∧
             (length consumed ≤ n)%nat).
  { exists (take n (http.Body r)). rewrite take_drop, length_take. 
    split; [done | lia]. }
  destruct (selectedDecoder _ _ _ _) as [m|e]; cbn;
    (split; [exact Hc|]); (split; [done | lia]).
Qed.


(** ** The loops over the node maps, entry by entry *)

Lemma marshalUp_fold_fmap (m : gmap Z kms.NodeStatusResponse.t) :
  map_Forall (λ id _, Go.is_uint32 id = true) m →
  map_fold kms.StatusResponse.marshalUp (∅, None) m
  = ((λ x, (kms.NodeStatusResponse.MarshalPB x pb.NodeStatusResponse.zero).1)
       <$> m, None).
Proof.
  apply (map_fold_weak_ind
    (λ st m, map_Forall (λ id _, Go.is_uint32 id = true) m →
             st = ((λ x, (kms.NodeStatusResponse.MarshalPB x
                            pb.NodeStatusResponse.zero).1) <$> m, None))).
  - intros _. by rewrite fmap_empty.
  - intros i x m' st Hi IH Hall.
    apply map_Forall_insert in Hall as [Hk Hall]; [|done].
    rewrite (IH Hall). cbn. by rewrite uint32_small, fmap_insert.
Qed.

Lemma unmarshalUp_fold_fmap (m : gmap Z pb.NodeStatusResponse.t) :
  map_Forall (λ id _, Go.is_uint32 id = true) m →
  map_fold kms.StatusResponse.unmarshalUp (∅, None) m
  = ((λ w, (kms.NodeStatusResponse.UnmarshalPB
              kms.NodeStatusResponse.zero w).1) <$> m, None).
Proof.
  apply (map_fold_weak_ind
    (λ st m, map_Forall (λ id _, Go.is_uint32 id = true) m →
             st = ((λ w, (kms.NodeStatusResponse.UnmarshalPB
                            kms.NodeStatusResponse.zero w).1) <$> m, None))).
  - intros _. by rewrite fmap_empty.
  - intros i x m' st Hi IH Hall.
    apply map_Forall_insert in Hall as [Hk Hall]; [|done].
    rewrite (IH Hall). cbn. by rewrite int_of_uint32, fmap_insert.
Qed.

Lemma rekey_int_of_uint32 {A : Type} (m : gmap Z A) :
  map_Forall (λ id _, Go.is_uint32 id = true) m → kms.rekey Go.int m = m.
Proof.
  intros Hm. apply rekey_fixed. intros k a Hk. apply int_of_uint32.
  exact (Hm k a Hk).
Qed.

Lemma rekey_uint32_of_uint32 {A : Type} (m : gmap Z A) :
  map_Forall (λ id _, Go.is_uint32 id = true) m → kms.rekey Go.uint32 m = m.
Proof.
  intros Hm. apply rekey_fixed. intros k a Hk. apply uint32_small.
  exact (Hm k a Hk).
Qed.

(** X5.  On a wire message whose map keys are [uint32] values,
    StatusResponse.UnmarshalPB returns nil with [NodesUp] holding, under
    the same IDs, each wire node unmarshalled into a fresh
    NodeStatusResponse, and with [NodesDown] equal to the wire map.
    StatusResponse.MarshalPB does the same in the other direction when
    the IDs of both maps are values a [uint32] holds. *)
Theorem StatusResponse_conversions_entrywise
  (s s0 : kms.StatusResponse.t) (v v0 : pb.StatusResponse.t) :
  (pb.StatusResponse.wf v →
   kms.StatusResponse.UnmarshalPB s0 v
   = ({| kms.StatusResponse.NodesUp :=
           (λ w, (kms.NodeStatusResponse.UnmarshalPB
                    kms.NodeStatusResponse.zero w).1)
             <$> pb.StatusResponse.NodesUp v;
         kms.StatusResponse.NodesDown := pb.StatusResponse.NodesDown v |},
      None))
  ∧
  (map_Forall (λ id _, Go.is_uint32 id = true) (kms.StatusResponse.NodesUp s) →
   map_Forall (λ id _, Go.is_uint32 id = true)
     (kms.StatusResponse.NodesDown s) →
   kms.StatusResponse.MarshalPB s v0
   = ({| pb.StatusResponse.NodesUp :=
           (λ x, (kms.NodeStatusResponse.MarshalPB x
                    pb.NodeStatusResponse.zero).1)
             <$> kms.StatusResponse.NodesUp s;
         pb.StatusResponse.NodesDown := kms.StatusResponse.NodesDown s |},
      None)).
Proof.
  split.
  - intros [Hup Hdown]. unfold kms.StatusResponse.UnmarshalPB.
    by rewrite (unmarshalUp_fold_fmap _ Hup), (rekey_int_of_uint32 _ Hdown).
  - intros Hup Hdown. unfold kms.StatusResponse.MarshalPB.
    by rewrite (marshalUp_fold_fmap _ Hup), (rekey_uint32_of_uint32 _ Hdown).
Qed.

(** ** The round trip of a whole cluster status *)

Lemma NodeStatusResponse_roundtrip_into
  (x s0 : kms.NodeStatusResponse.t) (v0 : pb.NodeStatusResponse.t) :
  kms.NodeStatusResponse.wf x →
  kms.NodeStatusResponse.fitsWire x →
  (kms.NodeStatusResponse.UnmarshalPB s0
     (kms.NodeStatusResponse.MarshalPB x v0).1).1
  = kms.NodeStatusResponse.withUpTime (kms.NodeStatusResponse.UpTime s0) x.
Proof.
  intros (_ & _ & _ & HL & Hh & Hi & He & _) (HN & HID & HC & HU).
  destruct x; cbn in *.
  unfold kms.NodeStatusResponse.withUpTime; cbn.
  rewrite !AsDuration_New by assumption.
  rewrite (rekey_uint32_of_uint32 Nodes), (rekey_int_of_uint32 Nodes)
    by assumption.
  rewrite !uint32_small by assumption.
  rewrite (int_of_uint32 ID), !uint_of_uint32 by assumption.
  rewrite (int64_small LeaderID).
  2:{ unfold_go. bool_to_Z. change (2 ^ (64 - 1)) with (2 ^ 63) in *.
      by_leb. }
  rewrite (int_small LeaderID) by assumption.
  reflexivity.
Qed.

(** X6.  The round trip of a StatusResponse whose node IDs fit a
    [uint32] and whose nodes are as the round trip of a
    NodeStatusResponse needs them: [NodesDown] comes back unchanged,
    [NodesUp] comes back with the same IDs, and each node agrees with
    the original on every field other than [UpTime]. *)
Theorem StatusResponse_roundtrip
  (s s0 : kms.StatusResponse.t) (v0 : pb.StatusResponse.t) :
  map_Forall (λ id x, Go.is_uint32 id = true ∧
                      kms.NodeStatusResponse.wf x ∧
                      kms.NodeStatusResponse.fitsWire x)
    (kms.StatusResponse.NodesUp s) →
  map_Forall (λ id _, Go.is_uint32 id = true)
    (kms.StatusResponse.NodesDown s) →
  let r := (kms.StatusResponse.UnmarshalPB s0
              (kms.StatusResponse.MarshalPB s v0).1).1 in
  kms.StatusResponse.NodesDown r = kms.StatusResponse.NodesDown s ∧
  dom (kms.StatusResponse.NodesUp r) = dom (kms.StatusResponse.NodesUp s) ∧
  ∀ id x, kms.StatusResponse.NodesUp s !! id = Some x →
    ∃ y, kms.StatusResponse.NodesUp r !! id = Some y ∧
         kms.NodeStatusResponse.withUpTime
           (kms.NodeStatusResponse.UpTime x) y = x.
Proof.
  intros Hup Hdown r. subst r.
  assert (Hkeys : map_Forall (λ id _, Go.is_uint32 id = true)
                    (kms.StatusResponse.NodesUp s)).
  { intros k x Hk. exact (proj1 (Hup k x Hk)). }
  unfold kms.StatusResponse.MarshalPB.
  rewrite (marshalUp_fold_fmap _ Hkeys), (rekey_uint32_of_uint32 _ Hdown).
  cbn [fst]. unfold kms.StatusResponse.UnmarshalPB.
  cbn [pb.StatusResponse.NodesUp pb.StatusResponse.NodesDown].
  rewrite unmarshalUp_fold_fmap.
  2:{ intros k w Hk. apply lookup_fmap_Some in Hk as (x & _ & Hk).
      exact (Hkeys k x Hk). }
  rewrite (rekey_int_of_uint32 _ Hdown).
  cbn [fst kms.StatusResponse.NodesUp kms.StatusResponse.NodesDown].
  split; [done|]. split; [by rewrite !dom_fmap_L|].
  intros id x Hx.
  destruct (Hup id x Hx) as (_ & Hwf & Hfit).
  exists (kms.NodeStatusResponse.UnmarshalPB kms.NodeStatusResponse.zero
            (kms.NodeStatusResponse.MarshalPB x
               pb.NodeStatusResponse.zero).1).1.
  split; [by rewrite !lookup_fmap, Hx|].
  rewrite (NodeStatusResponse_roundtrip_into _ _ _ Hwf Hfit).
  by destruct x.
Qed.

(** ** Re-keying: what a conversion of the keys loses *)

Section rekey_size.
Context {A : Type}.
Implicit Types (m out : gmap Z A) (conv : Z → Z).

Lemma distinctUnder_insert conv m i x :
  m !! i = None →
  (distinctUnder conv (<[i:=x]> m)
   ↔ distinctUnder conv m ∧ conv i ∉ (set_map conv (dom m) : gset Z)).
Proof.
  intros Hi. assert (Hni : i ∉ dom m) by by apply not_elem_of_dom.
  unfold distinctUnder. rewrite dom_insert_L. split.
  - intros Hd. split.
    + intros a b Ha Hb. apply Hd; apply elem_of_union; by right.
    + intros Him. apply elem_of_map in Him as (j & Hij & Hj).
      assert (i = j); [|by subst].
      apply Hd; [apply elem_of_union; left; by apply elem_of_singleton
                |apply elem_of_union; by right|done].
  - intros [Hd Hnim] a b Ha Hb Hab.
    apply elem_of_union in Ha as [Ha|Ha], Hb as [Hb|Hb];
      try apply elem_of_singleton in Ha; try apply elem_of_singleton in Hb.
    + by subst.
    + subst a. exfalso. apply Hnim. apply elem_of_map. eauto.
    + subst b. exfalso. apply Hnim. apply elem_of_map. eauto.
    + by apply Hd.
Qed.

Lemma rekey_size_spec conv m :
  (size (kms.rekey conv m) ≤ size m)%nat ∧
  (size (kms.rekey conv m) = size m ↔ distinctUnder conv m).
Proof.
  unfold kms.rekey.
  enough (dom (map_fold (λ id x out, <[conv id:=x]> out) ∅ m)
          = set_map conv (dom m) ∧
          (size (map_fold (λ id x out, <[conv id:=x]> out) ∅ m) ≤ size m)%nat ∧
          (size (map_fold (λ id x out, <[conv id:=x]> out) ∅ m) = size m
           ↔ distinctUnder conv m)) by tauto.
  apply (map_fold_weak_ind
    (λ out m, dom out = set_map conv (dom m) ∧
              (size out ≤ size m)%nat ∧
              (size out = size m ↔ distinctUnder conv m))).
  - rewrite !map_size_empty, !dom_empty_L, set_map_empty.
    split; [done|]. split; [lia|]. split; [|done].
    intros _ i j Hi. rewrite dom_empty_L in Hi. by apply elem_of_empty in Hi.
  - intros i x m' out Hi (Hdom & Hle & Hiff).
    split.
    { by rewrite !dom_insert_L, Hdom, set_map_union_L, set_map_singleton_L. }
    rewrite (map_size_insert_None i x m' Hi).
    rewrite (distinctUnder_insert conv m' i x Hi), <- Hdom.
    rewrite (map_size_insert (conv i) x out).
    destruct (out !! conv i) as [y|] eqn:Hout; unfold id.
    + assert (conv i ∈ dom out) by (apply elem_of_dom; eauto).
      split; [lia|]. split; [lia | tauto].
    + assert (conv i ∉ dom out) by by apply not_elem_of_dom.
      split; [lia|]. rewrite <- Hiff. split; [intros; split; [lia|done]|].
      intros [? _]. lia.
Qed.
End rekey_size.

(** X7.  MarshalPB never adds a node: the wire [Nodes] of a
    NodeStatusResponse and the wire [NodesDown] of a StatusResponse have
    at most as many entries as the Go maps, and have as many exactly
    when no two IDs of the Go map agree modulo 2^32. *)
Theorem MarshalPB_loses_colliding_nodes
  (s : kms.NodeStatusResponse.t) (v : pb.NodeStatusResponse.t)
  (c : kms.StatusResponse.t) (w : pb.StatusResponse.t) :
  let nodes := pb.NodeStatusResponse.Nodes
                 (kms.NodeStatusResponse.MarshalPB s v).1 in
  let down := pb.StatusResponse.NodesDown
                (kms.StatusResponse.MarshalPB c w).1 in
  ((size nodes ≤ size (kms.NodeStatusResponse.Nodes s))%nat ∧
   (size nodes = size (kms.NodeStatusResponse.Nodes s)
    ↔ distinctUnder (λ id, id mod 2 ^ 32) (kms.NodeStatusResponse.Nodes s)))
  ∧
  ((size down ≤ size (kms.StatusResponse.NodesDown c))%nat ∧
   (size down = size (kms.StatusResponse.NodesDown c)
    ↔ distinctUnder (λ id, id mod 2 ^ 32) (kms.StatusResponse.NodesDown c))).
Proof.
  intros nodes down. subst nodes down. split.
  - apply (rekey_size_spec Go.uint32).
  - unfold kms.StatusResponse.MarshalPB.
    destruct (marshalUp_fold (kms.StatusResponse.NodesUp c)) as [He _].
    destruct (map_fold _ _ _) as [up e]. cbn in He. subst e. cbn.
    apply (rekey_size_spec Go.uint32).
Qed.

(** ** The responses of Encrypt, Decrypt and GenerateKey *)

Lemma int_uint32 z : Go.int (Go.uint32 z) = Go.uint32 z.
Proof.
  apply int_of_uint32. pose proof (uint32_range z).
  unfold Go.is_uint32. apply andb_true_intro.
  split; [apply Z.leb_le | apply Z.ltb_lt]; lia.
Qed.

(** X8.  The round trip of an EncryptResponse or a GenerateKeyResponse
    through the wire message gives the response back exactly when its
    version is a value a [uint32] holds; that of a DecryptResponse
    always does.  From the wire side, unmarshalling a message and
    marshalling the result gives the message back. *)
Theorem key_responses_roundtrip :
  (∀ (r r0 : kms.EncryptResponse.t) (v0 : pb.EncryptResponse.t),
     (kms.EncryptResponse.UnmarshalPB r0
        (kms.EncryptResponse.MarshalPB r v0).1).1 = r
     ↔ Go.is_uint32 (kms.EncryptResponse.Version r) = true) ∧
  (∀ (r r0 : kms.GenerateKeyResponse.t) (v0 : pb.GenerateKeyResponse.t),
     (kms.GenerateKeyResponse.UnmarshalPB r0
        (kms.GenerateKeyResponse.MarshalPB r v0).1).1 = r
     ↔ Go.is_uint32 (kms.GenerateKeyResponse.Version r) = true) ∧
  (∀ (r r0 : kms.DecryptResponse.t) (v0 : pb.DecryptResponse.t),
     (kms.DecryptResponse.UnmarshalPB r0
        (kms.DecryptResponse.MarshalPB r v0).1).1 = r) ∧
  (∀ (v v0 : pb.EncryptResponse.t) (r0 : kms.EncryptResponse.t),
     Go.is_uint32 (pb.EncryptResponse.Version v) = true →
     (kms.EncryptResponse.MarshalPB
        (kms.EncryptResponse.UnmarshalPB r0 v).1 v0).1 = v) ∧
  (∀ (v v0 : pb.GenerateKeyResponse.t) (r0 : kms.GenerateKeyResponse.t),
     Go.is_uint32 (pb.GenerateKeyResponse.Version v) = true →
     (kms.GenerateKeyResponse.MarshalPB
        (kms.GenerateKeyResponse.UnmarshalPB r0 v).1 v0).1 = v) ∧
  (∀ (v v0 : pb.DecryptResponse.t) (r0 : kms.DecryptResponse.t),
     (kms.DecryptResponse.MarshalPB
        (kms.DecryptResponse.UnmarshalPB r0 v).1 v0).1 = v).
Proof.
  split_and!.
  - intros r r0 v0. split.
    + intros E. apply (f_equal kms.EncryptResponse.Version) in E.
      cbn in E. rewrite int_uint32 in E. by apply uint32_fixed.
    + intros Hv. destruct r as [ver ct]. cbn in *.
      by rewrite int_uint32, uint32_small.
  - intros r r0 v0. split.
    + intros E. apply (f_equal kms.GenerateKeyResponse.Version) in E.
      cbn in E. rewrite int_uint32 in E. by apply uint32_fixed.
    + intros Hv. destruct r as [ver pt ct]. cbn in *.
      by rewrite int_uint32, uint32_small.
  - by intros [pt] r0 v0.
  - intros [ver ct] v0 r0 Hv. cbn in *.
    by rewrite int_of_uint32, uint32_small.
  - intros [ver pt ct] v0 r0 Hv. cbn in *.
    by rewrite int_of_uint32, uint32_small.
  - by intros [pt] v0 r0.
Qed.

(** ** readResponse into the response types *)

Lemma readResponse_failsBeforeUnmarshalPB
  (ContentType ContentTypeBinary : string) {M T : Type}
  `{kms.Message M} `{kms.Unmarshaler T M} :
  (∀ (v : T) (m : M), (kms.UnmarshalPB v m).2 = None) →
  failsBeforeUnmarshalPB ContentType ContentTypeBinary M T.
Proof.
  intros Hnil r v o n. subst o.
  destruct (Z.lt_ge_cases (http.ContentLength r) 0) as [Hneg|Hlen].
  { rewrite readResponse_negative by exact Hneg. cbn. split.
    - split; [discriminate | intros [? _]; lia].
    - intros e _. split; [done | apply not_elem_of_nil]. }
  destruct (Nat.le_gt_cases n (length (http.Body r))) as [Hbody|Hshort].
  2:{ rewrite readResponse_short by assumption. cbn. split.
      - split; [discriminate | intros (_ & ? & _); lia].
      - intros e _. split; [done|]. intros Hin.
        apply list_elem_of_In in Hin. cbn in Hin. intuition discriminate. }
  rewrite readResponse_read by assumption. fold n.
  destruct (selectedDecoder _ _ _ _) as [m|e] eqn:Hdec; cbn.
  - rewrite Hnil. split; [|discriminate].
    split; [|done]. intros _. split; [lia|]. split; [exact Hbody|]. eauto.
  - split.
    + split; [discriminate|]. intros (_ & _ & m & Hm). discriminate.
    + intros e' _. split; [done|]. intros Hin.
      apply list_elem_of_In in Hin. cbn in Hin. unfold decodingEvent in Hin.
      destruct (selectsBinary _ _ _); intuition discriminate.
Qed.

(** X10.  readResponse into a NodeStatusResponse, StatusResponse,
    EncryptResponse, DecryptResponse or GenerateKeyResponse returns nil
    exactly when the content length is not negative, the body holds
    that many bytes and the selected decoder accepts them; whenever it
    returns an error, UnmarshalPB was not called and [v] is
    untouched. *)
Theorem readResponse_response_types
  (ContentType ContentTypeBinary : string)
  (cN : kms.Message pb.NodeStatusResponse.t)
  (cS : kms.Message pb.StatusResponse.t)
  (cE : kms.Message pb.EncryptResponse.t)
  (cD : kms.Message pb.DecryptResponse.t)
  (cG : kms.Message pb.GenerateKeyResponse.t) :
  @failsBeforeUnmarshalPB ContentType ContentTypeBinary
    pb.NodeStatusResponse.t kms.NodeStatusResponse.t
    cN kms.NodeStatusResponse_Unmarshaler ∧
  @failsBeforeUnmarshalPB ContentType ContentTypeBinary
    pb.StatusResponse.t kms.StatusResponse.t
    cS kms.StatusResponse_Unmarshaler ∧
  @failsBeforeUnmarshalPB ContentType ContentTypeBinary
    pb.EncryptResponse.t kms.EncryptResponse.t
    cE kms.EncryptResponse_Unmarshaler ∧
  @failsBeforeUnmarshalPB ContentType ContentTypeBinary
    pb.DecryptResponse.t kms.DecryptResponse.t
    cD kms.DecryptResponse_Unmarshaler ∧
  @failsBeforeUnmarshalPB ContentType ContentTypeBinary
    pb.GenerateKeyResponse.t kms.GenerateKeyResponse.t
    cG kms.GenerateKeyResponse_Unmarshaler.
Proof.
  split_and!; apply readResponse_failsBeforeUnmarshalPB; try done.
  intros s v. unfold kms.UnmarshalPB, kms.StatusResponse_Unmarshaler,
    kms.StatusResponse.UnmarshalPB.
  destruct (unmarshalUp_fold (pb.StatusResponse.NodesUp v)) as [He _].
  destruct (map_fold _ _ _) as [up e]. cbn in He. by subst e.
Qed.

(** ** The message declarations *)

(** X11.  In every message of the two [.proto] files the field names,
    the field numbers and the JSON labels are pairwise distinct and the
    field numbers are positive; no two messages share a name. *)
Theorem proto_messages_well_formed :
  Forall wellFormedMessage pb.request_proto ∧
  Forall wellFormedMessage pb.response_proto ∧
  NoDup (map pb.mname (pb.request_proto ++ pb.response_proto)).
Proof.
  split_and!.
  - unfold wellFormedMessage. apply (bool_decide_unpack _). by vm_compute.
  - unfold wellFormedMessage. apply (bool_decide_unpack _). by vm_compute.
  - apply (bool_decide_unpack _). by vm_compute.
Qed.

(** X12.  Every field of the generated request types has, in
    request.proto, the same JSON label and a field number higher by one
    (request.proto declares a first field the generated types do not
    have); AddKeyVersionRequest and RemoveKeyVersionRequest are not
    declared in request.proto. *)
Theorem generated_fields_against_request_proto :
  Forall (λ f : string * pb.StructTag,
            let (msg, tag) := f in
            match pb.jsonNameOf pb.request_proto msg (pb.name tag),
                  numberOf pb.request_proto msg (pb.name tag) with
            | Some label, Some number =>
                label = pb.json tag ∧ number = pb.number tag + 1
            | None, None =>
                msg = "AddKeyVersionRequest"%string ∨
                msg = "RemoveKeyVersionRequest"%string
            | _, _ => False
            end)
    generated.fields.
Proof.
  repeat (apply Forall_cons; split; [cbn; tauto|]). apply Forall_nil. done.
Qed.

(** X13.  The registration of the generated request types is
    consistent in either build.  There are as many types as message
    infos; each type's [ProtoReflect] and [Descriptor] use its position
    in [file_request_proto_goTypes]; the oneof wrappers are set for
    exactly the types with an optional field.  With
    [protoimpl.UnsafeEnabled], [Reset] stores the message info of that
    same position and no exporter is installed; without it, [Reset]
    stores none and the type has an exporter at its position. *)
Theorem generated_registration_consistent (unsafeEnabled : bool) :
  Z.of_nat (length generated.messageTypes) = generated.NumMessages ∧
  generated.NumMessages = generated.lenMsgTypes ∧
  map generated.goName generated.messageTypes
  = generated.file_request_proto_goTypes ∧
  Forall (λ t,
            generated.indexOf (generated.goName t)
              generated.file_request_proto_goTypes
            = Some (generated.reflectIndex t) ∧
            generated.descriptorPath t = [generated.reflectIndex t] ∧
            (generated.reflectIndex t ∈ generated.oneofWrappers
             ↔ generated.goName t ∈ generated.withOneof) ∧
            (if unsafeEnabled
             then generated.resetStores true t
                  = Some (generated.reflectIndex t) ∧
                  generated.exporters true = []
             else generated.resetStores false t = None ∧
                  generated.reflectIndex t ∈ generated.exporters false))
    generated.messageTypes.
Proof.
  split_and!; try reflexivity.
  destruct unsafeEnabled; apply (bool_decide_unpack _); by vm_compute.
Qed.

(** ** The properties above at the sample values *)

(** [sample.truncated] read into a DecryptResponse. *)
Lemma readResponse_truncated_witness :
  http.ContentLength sample.truncated <= Go.maxAlloc ∧
  (length (http.Body sample.truncated)
   < Z.to_nat (http.ContentLength sample.truncated))%nat ∧
  kms.err
    (@kms.readResponse sample.ContentType sample.binaryType _ _
       sample.codec kms.DecryptResponse_Unmarshaler
       sample.truncated kms.DecryptResponse.zero)
  = Some ErrUnexpectedEOF.
Proof.
  assert (Hshort : (length (http.Body sample.truncated)
                    < Z.to_nat (http.ContentLength sample.truncated))%nat)
    by (cbn; lia).
  assert (Halloc : http.ContentLength sample.truncated <= Go.maxAlloc)
    by discriminate.
  split; [exact Halloc|]. split; [exact Hshort|].
  exact (proj2 (proj2 (proj2 (proj2 (proj2
    (@readResponse_reads_ContentLength_bytes
       sample.ContentType sample.binaryType _ _
       sample.codec kms.DecryptResponse_Unmarshaler
       sample.truncated kms.DecryptResponse.zero Halloc)) Hshort)))).
Defined.


(** [sample.partitioned] unmarshalled entry by entry. *)
Lemma StatusResponse_entrywise_witness :
  pb.StatusResponse.wf sample.partitioned ∧
  kms.StatusResponse.NodesDown
    (kms.StatusResponse.UnmarshalPB kms.StatusResponse.zero
       sample.partitioned).1
  = <[2 := "10.0.0.3:7373"%string]> ∅.
Proof.
  split; [exact partitioned_wf|].
  rewrite (proj1 (StatusResponse_conversions_entrywise
                    kms.StatusResponse.zero kms.StatusResponse.zero
                    sample.partitioned pb.StatusResponse.zero)
             partitioned_wf).
  reflexivity.
Defined.

Lemma cluster_up :
  map_Forall (λ id x, Go.is_uint32 id = true ∧
                      kms.NodeStatusResponse.wf x ∧
                      kms.NodeStatusResponse.fitsWire x)
    (kms.StatusResponse.NodesUp sample.cluster).
Proof.
  apply map_Forall_insert_2; [|apply map_Forall_empty].
  split; [reflexivity|]. split; [exact leader_wf | exact leader_fitsWire].
Qed.

Lemma cluster_down :
  map_Forall (λ id _, Go.is_uint32 id = true)
    (kms.StatusResponse.NodesDown sample.cluster).
Proof. map_Forall_concrete. Qed.

(** The round trip of [sample.cluster]. *)
Lemma StatusResponse_roundtrip_witness :
  let r := (kms.StatusResponse.UnmarshalPB kms.StatusResponse.zero
              (kms.StatusResponse.MarshalPB sample.cluster
                 pb.StatusResponse.zero).1).1 in
  kms.StatusResponse.NodesDown r
  = kms.StatusResponse.NodesDown sample.cluster ∧
  dom (kms.StatusResponse.NodesUp r)
  = dom (kms.StatusResponse.NodesUp sample.cluster).
Proof.
  pose proof (StatusResponse_roundtrip sample.cluster
                kms.StatusResponse.zero pb.StatusResponse.zero
                cluster_up cluster_down) as (Hdown & Hup & _).
  split; [exact Hdown | exact Hup].
Defined.

(** [sample.sealed] unmarshalled and marshalled again. *)
Lemma key_responses_witness :
  Go.is_uint32 (pb.EncryptResponse.Version sample.sealed) = true ∧
  (kms.EncryptResponse.MarshalPB
     (kms.EncryptResponse.UnmarshalPB kms.EncryptResponse.zero
        sample.sealed).1 pb.EncryptResponse.zero).1
  = sample.sealed.
Proof.
  split; [reflexivity|].
  destruct key_responses_roundtrip as (_ & _ & _ & Hwire & _).
  apply Hwire. reflexivity.
Defined.

(** The two unreachable nodes of [sample.colliding] become one on the
    wire. *)
Example colliding_on_the_wire :
  size (kms.StatusResponse.NodesDown sample.colliding) = 2%nat ∧
  size (pb.StatusResponse.NodesDown
          (kms.StatusResponse.MarshalPB sample.colliding
             pb.StatusResponse.zero).1) = 1%nat.
Proof. split; reflexivity. Qed.
